(** * A shallow embedding of browser_patches/repack-juggler.mjs

    The script downloads a Firefox build, caches it under a stage
    directory, finds the [omni.ja] archive that carries Juggler, and
    rebuilds it with the Juggler files listed in [jar.mn].

    Strings are Rocq [string]s (ASCII text).  JavaScript values that may
    be [NaN] or [undefined] are written with [option].  Effects
    (processes run, files written, requests sent) are recorded in traces
    so that the properties about "no work" and "no probe" can be
    stated. *)

From stdpp Require Import base gmap strings list.
From Stdlib Require Import ZArith Ascii String.

Local Open Scope string_scope.

(* ------------------------------------------------------------------ *)
(** ** JavaScript string primitives used by the script *)

Module Js.

(** A string holds the UTF-8 encoding of the text ([readFile(p, 'utf8')]
    decodes it, and the paths built from it are encoded back); the
    whitespace of [String.prototype.trim] and of [\s] is matched on the
    encoded bytes. *)

(** The byte values of [s]. *)
Fixpoint byte_values (s : string) : list nat :=
  match s with
  | EmptyString => []
  | String c r => nat_of_ascii c :: byte_values r
  end.

(** [s] without its first [k] bytes, and its first [k] bytes. *)
Definition str_drop (k : nat) (s : string) : string := String.substring k (String.length s - k) s.
Definition str_take (k : nat) (s : string) : string := String.substring 0 k s.

(** [bs] encodes one code point of [WhiteSpace] or [LineTerminator]:
    U+0009 to U+000D, U+0020, U+00A0, U+1680, U+2000 to U+200A, U+2028,
    U+2029, U+202F, U+205F, U+3000 and U+FEFF. *)
Definition is_space (bs : list nat) : bool :=
  match bs with
  | [a] => (9 <=? a) && (a <=? 13) || (a =? 32)
  | [a; b] => (a =? 194) && (b =? 160)
  | [a; b; c] =>
      (a =? 225) && (b =? 154) && (c =? 128)
      || (a =? 226) && (b =? 128) && ((128 <=? c) && (c <=? 138) || (c =? 168) || (c =? 169) || (c =? 175))
      || (a =? 226) && (b =? 129) && (c =? 159)
      || (a =? 227) && (b =? 128) && (c =? 128)
      || (a =? 239) && (b =? 187) && (c =? 191)
  | _ => false
  end%nat.

(** The byte length of the whitespace code point [s] starts with, or 0. *)
Definition space_len (s : string) : nat :=
  let b := byte_values s in
  if is_space (firstn 1 b) then 1
  else if is_space (firstn 2 b) then 2
  else if is_space (firstn 3 b) then 3
  else 0.

(** The byte length of the whitespace code point [s] ends with, or 0. *)
Definition space_len_end (s : string) : nat :=
  let b := List.rev (byte_values s) in
  if is_space (List.rev (firstn 1 b)) then 1
  else if is_space (List.rev (firstn 2 b)) then 2
  else if is_space (List.rev (firstn 3 b)) then 3
  else 0.

(** Reversal of a string. *)
Fixpoint rev_app (s acc : string) : string :=
  match s with
  | EmptyString => acc
  | String c r => rev_app r (String c acc)
  end.

Definition string_rev (s : string) : string := rev_app s EmptyString.

Fixpoint trim_start_go (fuel : nat) (s : string) : string :=
  match fuel with
  | O => s
  | S f => match space_len s with O => s | k => trim_start_go f (str_drop k s) end
  end.

Definition trim_start (s : string) : string := trim_start_go (String.length s) s.

Fixpoint trim_end_go (fuel : nat) (s : string) : string :=
  match fuel with
  | O => s
  | S f => match space_len_end s with O => s | k => trim_end_go f (str_take (String.length s - k) s) end
  end.

Definition trim_end (s : string) : string := trim_end_go (String.length s) s.

(** [s.trim()] *)
Definition trim (s : string) : string := trim_end (trim_start s).

(** [s.startsWith(p)] *)
Fixpoint starts_with (p s : string) : bool :=
  match p, s with
  | EmptyString, _ => true
  | String a p', String b s' => Ascii.eqb a b && starts_with p' s'
  | String _ _, EmptyString => false
  end.

(** [s.endsWith(p)] *)
Definition ends_with (p s : string) : bool :=
  starts_with (string_rev p) (string_rev s).

(** [s.includes(p)] *)
Fixpoint includes (s p : string) : bool :=
  starts_with p s ||
  match s with
  | EmptyString => false
  | String _ r => includes r p
  end.

(** [s.split(c)] for a one-character separator: ["a==b".split("=")]
    is [["a"; ""; "b"]] and [""] splits to [[""]]. *)
Fixpoint split_on (c : ascii) (s : string) : list string :=
  match s with
  | EmptyString => [EmptyString]
  | String d r =>
      match split_on c r with
      | [] => [] (* not reached: the result is never empty *)
      | w :: ws => if Ascii.eqb c d then EmptyString :: w :: ws
                   else String d w :: ws
      end
  end.

(** [parts.join(sep)] *)
Fixpoint join (sep : string) (parts : list string) : string :=
  match parts with
  | [] => EmptyString
  | [w] => w
  | w :: ws => w ++ sep ++ join sep ws
  end.

(** [s.split(/\s+/)]: maximal runs of whitespace separate the tokens;
    leading or trailing whitespace yields an empty first or last token.
    [cur] is the current token, reversed; each step consumes a byte or a
    whitespace code point, so [S (String.length s)] steps suffice. *)
Fixpoint split_ws_go (fuel : nat) (cur : string) (in_space : bool) (s : string)
  : list string :=
  match fuel with
  | O => [string_rev cur]
  | S f =>
      match s with
      | EmptyString => [string_rev cur]
      | String c r =>
          match space_len s with
          | O => split_ws_go f (String c cur) false r
          | k =>
              if in_space then split_ws_go f cur true (str_drop k s)
              else string_rev cur :: split_ws_go f EmptyString true (str_drop k s)
          end
      end
  end.

Definition split_ws (s : string) : list string :=
  split_ws_go (S (String.length s)) EmptyString false s.

(** [s.substring(a, b)]: the arguments are swapped when [a > b]. *)
Definition substring_js (s : string) (a b : nat) : string :=
  let lo := Nat.min a b in
  let hi := Nat.max a b in
  String.substring lo (hi - lo) s.

(** The byte length of a code point from its first byte (1 for a byte
    that cannot start one). *)
Definition lead_len (n : nat) : nat :=
  (if n <? 192 then 1 else if n <? 224 then 2 else if n <? 240 then 3 else if n <? 248 then 4 else 1)%nat.

Definition is_cont (n : nat) : bool := ((128 <=? n) && (n <? 192))%nat.

(** The byte length of the first code point of [s]. *)
Definition first_char_len (s : string) : nat :=
  match byte_values s with
  | [] => 0
  | a :: r =>
      let k := lead_len a in
      if (k - 1 <=? List.length r) && forallb is_cont (firstn (k - 1) r) then k else 1
  end%nat.

(** The byte length of the last code point of [s]. *)
Definition last_char_len (s : string) : nat :=
  match List.rev (byte_values s) with
  | [] => 0
  | a :: r =>
      if negb (is_cont a) then 1
      else match r with
           | b :: r' =>
               if negb (is_cont b) then (if lead_len b =? 2 then 2 else 1)
               else match r' with
                    | c :: r'' =>
                        if negb (is_cont c) then (if lead_len c =? 3 then 3 else 1)
                        else match r'' with
                             | d :: _ => if lead_len d =? 4 then 4 else 1
                             | [] => 1
                             end
                    | [] => 1
                    end
           | [] => 1
           end
  end%nat.

(** U+FFFD, which a lone UTF-16 surrogate becomes when encoded. *)
Definition replacement_char : string :=
  String (ascii_of_nat 239) (String (ascii_of_nat 191) (String (ascii_of_nat 189) EmptyString)).

(** [s.slice(1, -1)] drops the first and the last UTF-16 code unit.  A
    code point of four bytes is two code units: the half left of it is
    a lone surrogate, which becomes U+FFFD in the path. *)
Definition slice_1_m1 (s : string) : string :=
  let f := first_char_len s in
  let l := last_char_len s in
  if (String.length s <=? f)%nat then EmptyString
  else (if (f =? 4)%nat then replacement_char else EmptyString)
       ++ String.substring f (String.length s - f - l) s
       ++ (if (l =? 4)%nat then replacement_char else EmptyString).

(** [s.toLowerCase()] on ASCII letters. *)
Definition lower_char (c : ascii) : ascii :=
  let n := nat_of_ascii c in
  if (65 <=? n)%nat && (n <=? 90)%nat then ascii_of_nat (n + 32)%nat else c.

Fixpoint to_lower (s : string) : string :=
  match s with
  | EmptyString => EmptyString
  | String c r => String (lower_char c) (to_lower r)
  end.

(** Decimal digits. *)
Definition digit_val (c : ascii) : option Z :=
  let n := nat_of_ascii c in
  if (48 <=? n)%nat && (n <=? 57)%nat then Some (Z.of_nat (n - 48)%nat) else None.

Fixpoint digits_go (acc : option Z) (s : string) : option Z :=
  match s with
  | EmptyString => acc
  | String c r =>
      match digit_val c with
      | Some d => digits_go (Some (10 * default 0 acc + d)%Z) r
      | None => acc
      end
  end.

(** [parseInt(s, 10)]: leading whitespace, an optional sign, then the
    longest run of decimal digits; [None] is [NaN].  Integers are exact
    (JavaScript rounds digit strings beyond 2^53). *)
Definition parse_int (s : string) : option Z :=
  match trim_start s with
  | String "-" r => option_map Z.opp (digits_go None r)
  | String "+" r => digits_go None r
  | t => digits_go None t
  end.

Fixpoint dec_go (fuel : nat) (n : N) (acc : string) : string :=
  match fuel with
  | O => acc
  | S f =>
      let d := ascii_of_N (48 + N.modulo n 10)%N in
      let q := N.div n 10%N in
      if (q =? 0)%N then String d acc else dec_go f q (String d acc)
  end.

(** Decimal rendering of a non-negative integer. *)
Definition dec_N (n : N) : string := dec_go (S (N.to_nat (N.log2 n))) n EmptyString.

(** [String(x)] (or [`${x}`]) for an integral number; [NaN] is [None]. *)
Definition num_to_string (x : option Z) : string :=
  match x with
  | None => "NaN"
  | Some z => if (z <? 0)%Z then "-" ++ dec_N (Z.to_N (- z)) else dec_N (Z.to_N z)
  end.

(** [`${x}`] for an array element that may be [undefined]. *)
Definition elem_to_string (x : option (option Z)) : string :=
  match x with
  | None => "undefined"
  | Some v => num_to_string v
  end.

(** The properties every object literal inherits from [Object.prototype]. *)
Definition object_prototype_names : list string :=
  ["constructor"; "__proto__"; "__defineGetter__"; "__defineSetter__";
   "__lookupGetter__"; "__lookupSetter__"; "hasOwnProperty"; "isPrototypeOf";
   "propertyIsEnumerable"; "toLocaleString"; "toString"; "valueOf"].

(** The value of [obj[k]] on an object literal: one of its own
    properties, or the member it inherits from [Object.prototype] (a
    function, or the prototype object itself for [__proto__]). *)
Inductive prop (A : Type) := Own (x : A) | Inherited (name : string).
Arguments Own {A} x.
Arguments Inherited {A} name.

(** [obj[k]] given the own properties of [obj]; [None] is [undefined]. *)
Definition get_prop {A} (own : string -> option A) (k : string) : option (prop A) :=
  match own k with
  | Some x => Some (Own x)
  | None => if existsb (String.eqb k) object_prototype_names then Some (Inherited k) else None
  end.

(** [util.inspect] of an inherited member: [Object.prototype] itself for
    [__proto__], the function [Object] for [constructor], and otherwise
    the function of that name. *)
Definition inspect_inherited (name : string) : string :=
  if String.eqb name "__proto__" then "[Object: null prototype] {}"
  else if String.eqb name "constructor" then "[Function: Object]"
  else "[Function: " ++ name ++ "]".

End Js.

(* ------------------------------------------------------------------ *)
(** ** [getHostPlatform] and [getUbuntuVersionSync] *)

Module Platform.
Import Js.

(** What the script observes about the machine it runs on. *)
Record host := {
  os_platform : string;                    (* os.platform() *)
  sw_vers_output : string;                 (* stdout of sw_vers -productVersion *)
  sysctl_arm64_output : string;            (* stdout of sysctl -in hw.optional.arm64 *)
  file_exists : string -> bool;            (* fs.existsSync *)
  read_text_file : string -> option string (* fs.readFileSync(p, 'utf8'); None when it throws *)
}.

(** The processes started by [child_process.execSync]. *)
Inductive command := SwVersProductVersion | SysctlArm64.

Definition dquote : string := String (ascii_of_nat 34) EmptyString.

(** One line of [getUbuntuVersionInternal]'s loop: [fields] is the [Map]. *)
Definition release_line (fields : gmap string string) (line : string)
  : gmap string string :=
  match split_on "=" line with
  | [] => fields
  | name :: tokens =>
      let value0 := trim (join "=" tokens) in
      let value :=
        if starts_with dquote value0 && ends_with dquote value0
        then substring_js value0 1 (String.length value0 - 1)
        else value0 in
      if String.eqb name "" then fields
      else <[to_lower name := value]> fields
  end.

(** [value || ''] for a [Map.get] result. *)
Definition or_empty (v : option string) : string := default "" v.

(** A [Map.get] result that is truthy and lower-cases to [s]. *)
Definition get_is (v : option string) (s : string) : bool :=
  match v with
  | Some x => negb (String.eqb x "") && String.eqb (to_lower x) s
  | None => false
  end.

Definition getUbuntuVersionInternal (osReleaseText : string) : string :=
  let fields := foldl release_line ∅ (split_on "010" osReleaseText) in
  if get_is (fields !! "distrib_id") "ubuntu" then or_empty (fields !! "distrib_release")
  else if negb (get_is (fields !! "name") "ubuntu") then ""
  else or_empty (fields !! "version_id").

Definition upstream_lsb_release : string := "/etc/upstream-release/lsb-release".
Definition os_release : string := "/etc/os-release".

Definition getUbuntuVersionSync (h : host) : string :=
  if negb (String.eqb (os_platform h) "linux") then ""
  else
    let text :=
      if file_exists h upstream_lsb_release then read_text_file h upstream_lsb_release
      else read_text_file h os_release in
    match text with
    | None => ""                                  (* catch (e) { return ''; } *)
    | Some t => if String.eqb t "" then "" else getUbuntuVersionInternal t
    end.

(** [major >= k], [major === k], [major > k] on an array element that may
    be [undefined] or [NaN]: all false unless it is a number. *)
Definition num_ge (x : option (option Z)) (k : Z) : bool :=
  match x with Some (Some z) => (k <=? z)%Z | _ => false end.
Definition num_eq (x : option (option Z)) (k : Z) : bool :=
  match x with Some (Some z) => (z =? k)%Z | _ => false end.
Definition num_gt (x : option (option Z)) (k : Z) : bool :=
  match x with Some (Some z) => (k <? z)%Z | _ => false end.

(** [sw_vers -productVersion].trim().split('.').map(x => parseInt(x, 10)) *)
Definition product_version_parts (h : host) : list (option Z) :=
  map parse_int (split_on "." (trim (sw_vers_output h))).

(** The value computed by the [sysctl] probe when it runs. *)
Definition arm64_probe (h : host) : bool :=
  String.eqb (trim (sysctl_arm64_output h)) "1".

Definition LAST_STABLE_MAC_MAJOR_VERSION : Z := 11.

(** [getHostPlatform]: the tag and the processes it started. *)
Definition getHostPlatform (h : host) : string * list command :=
  let platform := os_platform h in
  if String.eqb platform "darwin" then
    let parts := product_version_parts h in
    let major := parts !! 0 in
    let minor := parts !! 1 in
    let '(arm64, cmds) :=
      if num_ge major 11 then (arm64_probe h, [SwVersProductVersion; SysctlArm64])
      else (false, [SwVersProductVersion]) in
    let macVersion :=
      if num_eq major 10 then elem_to_string major ++ "." ++ elem_to_string minor
      else if num_gt major LAST_STABLE_MAC_MAJOR_VERSION
      then num_to_string (Some LAST_STABLE_MAC_MAJOR_VERSION)
      else elem_to_string major in
    let archSuffix := if arm64 then "-arm64" else "" in
    ("mac" ++ macVersion ++ archSuffix, cmds)
  else if String.eqb platform "linux" then
    let ubuntuVersion := getUbuntuVersionSync h in
    match parse_int ubuntuVersion with
    | Some v => if (v <=? 19)%Z then ("ubuntu18.04", []) else ("ubuntu20.04", [])
    | None => ("ubuntu20.04", [])                (* NaN <= 19 is false *)
    end
  else if String.eqb platform "win32" then ("win64", [])
  else (platform, []).

End Platform.

Definition mac_host (version arm : string) : Platform.host :=
  {| Platform.os_platform := "darwin"; Platform.sw_vers_output := version;
     Platform.sysctl_arm64_output := arm;
     Platform.file_exists := fun _ => false; Platform.read_text_file := fun _ => None |}.

Definition linux_host (os_release_text : option string) : Platform.host :=
  {| Platform.os_platform := "linux"; Platform.sw_vers_output := "";
     Platform.sysctl_arm64_output := "";
     Platform.file_exists := fun _ => false;
     Platform.read_text_file := fun p =>
       if String.eqb p Platform.os_release then os_release_text else None |}.

Definition ubuntu1804_release : string :=
  "NAME=" ++ Platform.dquote ++ "Ubuntu" ++ Platform.dquote ++ "
VERSION_ID=" ++ Platform.dquote ++ "18.04" ++ Platform.dquote.

(* ------------------------------------------------------------------ *)
(** ** [httpRequest] and [downloadFile] *)

Module Download.
Import Js.

(** The fields of an [http.IncomingMessage] the script reads. *)
Record response := {
  statusCode : Z;
  location : option string;   (* res.headers.location *)
  body : string               (* the bytes piped to the file *)
}.

(** What the network answers for each URL ([request] errors and the
    [Content-Length] progress reporting are not modelled). *)
Definition server := string -> response.

(** [res.statusCode >= 300 && res.statusCode < 400 && res.headers.location]
    (an empty header is falsy). *)
Definition is_redirect (r : response) : bool :=
  (300 <=? statusCode r)%Z && (statusCode r <? 400)%Z &&
  match location r with Some l => negb (String.eqb l EmptyString) | None => false end.

(** [httpRequest(url, 'GET', response)]: the URLs requested and the
    response handed to the callback.  The source follows redirects with
    no bound; [fuel] only bounds how many hops this function simulates
    ([None]: still redirecting). *)
Fixpoint httpRequest (fuel : nat) (serve : server) (url : string)
  : option (list string * response) :=
  match fuel with
  | O => None
  | S f =>
      let res := serve url in
      if is_redirect res then
        match location res with
        | Some l => option_map (fun '(urls, r) => (url :: urls, r)) (httpRequest f serve l)
        | None => None (* not reached: is_redirect requires a location *)
        end
      else Some ([url], res)
  end.

Inductive outcome := Fulfilled | Rejected (message : string).

(** The observable result of a download. *)
Record run := {
  requested : list string;            (* URLs requested, in order *)
  result : outcome;                   (* how the promise settles *)
  files : gmap string string;         (* the file system afterwards *)
  drained : bool                      (* response.resume() was called *)
}.

Definition failure_message (status : Z) (url : string) : string :=
  "Download failed: server returned code " ++ num_to_string (Some status) ++ ". URL: " ++ url.

(** [downloadFile(url, destinationPath, progressCallback)] *)
Definition downloadFile (fuel : nat) (serve : server) (url destinationPath : string)
  (fs : gmap string string) : option run :=
  match httpRequest fuel serve url with
  | None => None
  | Some (urls, response) =>
      if negb (statusCode response =? 200)%Z then
        Some {| requested := urls; result := Rejected (failure_message (statusCode response) url);
                files := fs; drained := true |}
      else
        (* fs.createWriteStream(destinationPath) truncates; response.pipe(file) *)
        Some {| requested := urls; result := Fulfilled;
                files := <[destinationPath := body response]> fs; drained := false |}
  end.

(** The hops of a redirect chain: [u] redirects to the first of [hops],
    which redirects to the next, ..., ending at [last]. *)
Fixpoint redirects_to (serve : server) (u : string) (hops : list string) (last : string) : Prop :=
  match hops with
  | [] => u = last
  | v :: rest => is_redirect (serve u) = true /\ location (serve u) = Some v /\
                 redirects_to serve v rest last
  end.

End Download.

Definition sample_server : Download.server := fun u =>
  if String.eqb u "https://a/x" then
    {| Download.statusCode := 302; Download.location := Some "https://b/y"; Download.body := "moved" |}
  else if String.eqb u "https://b/y" then
    {| Download.statusCode := 200; Download.location := None; Download.body := "ZIPDATA" |}
  else {| Download.statusCode := 404; Download.location := None; Download.body := "nope" |}.

(* ------------------------------------------------------------------ *)
(** ** [ensureFirefoxBuild] *)

Module BuildCache.
Import Js.

(** The first argument of the script, once accepted. *)
Inductive variant := Firefox | FirefoxBeta.

Definition browserName (v : variant) : string :=
  match v with Firefox => "firefox" | FirefoxBeta => "firefox-beta" end.

Definition BUILD_DIRECTORY : string := "/tmp/repackaged-firefox".
Definition buildZipPath : string := BUILD_DIRECTORY ++ "/firefox.zip".

Definition url_table (v : variant) : list (string * string) :=
  let base := "https://playwright.azureedge.net/builds/" ++ browserName v ++ "/%s/" ++ browserName v in
  [("ubuntu18.04", base ++ "-ubuntu-18.04.zip");
   ("ubuntu20.04", base ++ "-ubuntu-20.04.zip");
   ("mac10.14", base ++ "-mac-11.zip");
   ("mac10.15", base ++ "-mac-11.zip");
   ("mac11", base ++ "-mac-11.zip");
   ("mac11-arm64", base ++ "-mac-11-arm64.zip");
   ("win64", base ++ "-win64.zip")].

Fixpoint assoc (k : string) (l : list (string * string)) : option string :=
  match l with
  | [] => None
  | (k', x) :: r => if String.eqb k k' then Some x else assoc k r
  end.

(** [DOWNLOAD_URLS[browserName][buildPlatform]]: an own URL template,
    a member inherited from [Object.prototype], or [undefined] ([None]). *)
Definition DOWNLOAD_URLS (v : variant) (buildPlatform : string) : option (prop string) :=
  get_prop (fun k => assoc k (url_table v)) buildPlatform.

(** [util.format(template, arg)] for a template with [%s] placeholders:
    the first one takes [arg]. *)
Fixpoint format (template arg : string) : string :=
  match template with
  | String "%" (String "s" r) => arg ++ r
  | String c r => String c (format r arg)
  | EmptyString => EmptyString
  end.

(** [util.format(urlTemplate, arg)] for the value read from
    [DOWNLOAD_URLS]: a string is a template; any other value is
    inspected and followed by a space and the string [arg]. *)
Definition util_format (urlTemplate : prop string) (arg : string) : string :=
  match urlTemplate with
  | Own template => format template arg
  | Inherited name => inspect_inherited name ++ " " ++ arg
  end.

(** The object [currentBuildInfo] / [buildInfo]: a property that is absent
    or not a string (so never [===] to a string) is [None]. *)
Record build_info := {
  buildNumber : option string;
  buildPlatform : option string;
  info_browserName : option string
}.

(** What [JSON.parse] makes of [build-info.json]: [null], or a value whose
    three properties are read (a number, string, array or boolean reads
    as an object with none of them). *)
Inductive json := JNull | JValue (b : build_info).

Inductive info_file := InfoMissing | InfoUnparseable | InfoJson (j : json).

(** The stage directory, as far as the script touches it: the descriptor
    file, the [omni.ja] backup, the downloaded [firefox.zip], and whether
    any of the build was extracted from it. *)
Record disk := {
  info : info_file;              (* build-info.json *)
  omni_backup_exists : bool;     (* omni.ja.backup *)
  build_zip_exists : bool;       (* firefox.zip *)
  build_extracted : bool         (* entries of firefox.zip written to the stage *)
}.

(** Work done by [ensureFirefoxBuild]. *)
Inductive event :=
  | ReadBuildNumberFile (v : variant)
  | ProbeHostPlatform
  | RemoveStage                                    (* fs.promises.rm(BUILD_DIRECTORY, {recursive}) *)
  | MakeStage                                      (* fs.promises.mkdir(BUILD_DIRECTORY) *)
  | DownloadTo (url dest : string)                 (* downloadFile(url, buildZipPath, ...) *)
  | Extract (archive dest : string) (overwrite keepOriginalPermission : bool)
  | WriteBuildInfo (b : build_info).

(** A state, error and trace monad: [inl] is a thrown error. *)
Definition M (A : Type) := disk -> (string + A) * disk * list event.

Definition ret {A} (x : A) : M A := fun d => (inr x, d, []).
Definition throw {A} (msg : string) : M A := fun d => (inl msg, d, []).
Definition bind {A B} (m : M A) (k : A -> M B) : M B := fun d =>
  match m d with
  | (inl e, d', t) => (inl e, d', t)
  | (inr x, d', t) => let '(r, d'', t') := k x d' in (r, d'', (t ++ t')%list)
  end.
Definition emit (e : event) : M unit := fun d => (inr tt, d, [e]).
Definition get_disk : M disk := fun d => (inr d, d, []).
Definition put_disk (d : disk) : M unit := fun _ => (inr tt, d, []).

Notation "x <- m ;; k" := (bind m (fun x => k)) (at level 100, m at next level, right associativity).

(** What the script cannot decide by itself. *)
Record env := {
  host_platform : string;                        (* getHostPlatform() *)
  build_number_file : variant -> option string;  (* <browser>/BUILD_NUMBER; None: read fails *)
  download_error : string -> option string;      (* downloadFile(url) rejects with this *)
  download_leaves_zip : string -> bool;          (* ... after creating firefox.zip *)
  extract_error : string -> option string;       (* new AdmZip / extractAllTo throws this *)
  extract_leaves_files : string -> bool          (* ... after writing some entries *)
}.

Section Ensure.
Variable E : env.

(** [!x] for an optional string argument. *)
Definition absent (x : option string) : bool :=
  match x with None => true | Some s => String.eqb s EmptyString end.

Definition resolveBuildNumber (v : variant) (bn : option string) : M string :=
  if absent bn then
    _ <- emit (ReadBuildNumberFile v) ;;
    match build_number_file E v with
    | None => throw "ENOENT: BUILD_NUMBER"
    | Some text => ret (default EmptyString (head (split_on "010" text)))
    end
  else ret (default EmptyString bn).

Definition resolveBuildPlatform (bp : option string) : M string :=
  if absent bp then _ <- emit ProbeHostPlatform ;; ret (host_platform E)
  else ret (default EmptyString bp).

(** [readFile(BUILD_INFO_PATH).then(JSON.parse).catch(e => ({...: ''}))];
    [None] is [null]. *)
Definition empty_info : build_info :=
  {| buildNumber := Some EmptyString; buildPlatform := Some EmptyString;
     info_browserName := Some EmptyString |}.

Definition currentBuildInfo (f : info_file) : option build_info :=
  match f with
  | InfoMissing | InfoUnparseable => Some empty_info
  | InfoJson JNull => None
  | InfoJson (JValue b) => Some b
  end.

(** [x === s] for a property [x] and a string [s]. *)
Definition prop_is (x : option string) (s : string) : bool :=
  match x with Some y => String.eqb y s | None => false end.

Definition matches (cur : build_info) (v : variant) (bn bp : string) : bool :=
  prop_is (buildPlatform cur) bp && prop_is (buildNumber cur) bn &&
  prop_is (info_browserName cur) (browserName v).

(** Lines 103-126: wipe the stage directory, download, extract and
    record the new build.  The archive's entries lie under [firefox/],
    so the extraction writes neither the descriptor nor the backup. *)
Definition stageBuild (v : variant) (buildNumber buildPlatform : string) : M build_info :=
  _ <- emit RemoveStage ;;
  _ <- put_disk {| info := InfoMissing; omni_backup_exists := false;
                   build_zip_exists := false; build_extracted := false |} ;;
  _ <- emit MakeStage ;;
  match DOWNLOAD_URLS v buildPlatform with
  | None => throw ("ERROR: repack-juggler does not support " ++ buildPlatform)
  | Some urlTemplate =>
      let url := util_format urlTemplate buildNumber in
      _ <- emit (DownloadTo url buildZipPath) ;;
      match download_error E url with
      | Some e =>
          _ <- put_disk {| info := InfoMissing; omni_backup_exists := false;
                           build_zip_exists := download_leaves_zip E url;
                           build_extracted := false |} ;;
          throw e
      | None =>
          _ <- emit (Extract buildZipPath BUILD_DIRECTORY false true) ;;
          match extract_error E url with
          | Some e =>
              _ <- put_disk {| info := InfoMissing; omni_backup_exists := false;
                               build_zip_exists := true;
                               build_extracted := extract_leaves_files E url |} ;;
              throw e
          | None =>
              let buildInfo := {| buildNumber := Some buildNumber;
                                  buildPlatform := Some buildPlatform;
                                  info_browserName := Some (browserName v) |} in
              _ <- emit (WriteBuildInfo buildInfo) ;;
              (* JSON.stringify then JSON.parse gives the same strings back *)
              _ <- put_disk {| info := InfoJson (JValue buildInfo);
                               omni_backup_exists := false;
                               build_zip_exists := true; build_extracted := true |} ;;
              ret buildInfo
          end
      end
  end.

Definition ensureFirefoxBuild (v : variant) (bn bp : option string) : M build_info :=
  buildNumber <- resolveBuildNumber v bn ;;
  buildPlatform <- resolveBuildPlatform bp ;;
  d <- get_disk ;;
  match currentBuildInfo (info d) with
  | None => throw "TypeError: Cannot read properties of null"
  | Some cur =>
      if matches cur v buildNumber buildPlatform then ret cur
      else stageBuild v buildNumber buildPlatform
  end.

End Ensure.

(** Events that download, extract, or change the stage directory. *)
Definition is_work (e : event) : bool :=
  match e with
  | RemoveStage | MakeStage | DownloadTo _ _ | Extract _ _ _ _ | WriteBuildInfo _ => true
  | ReadBuildNumberFile _ | ProbeHostPlatform => false
  end.

(** The stage directory after [rm -rf] and [mkdir]. *)
Definition wiped : disk :=
  {| info := InfoMissing; omni_backup_exists := false;
     build_zip_exists := false; build_extracted := false |}.

(** The stage after a failed download of [url]. *)
Definition download_failed (E : env) (url : string) : disk :=
  {| info := InfoMissing; omni_backup_exists := false;
     build_zip_exists := download_leaves_zip E url; build_extracted := false |}.

(** The stage after a failed extraction of the archive from [url]. *)
Definition extract_failed (E : env) (url : string) : disk :=
  {| info := InfoMissing; omni_backup_exists := false;
     build_zip_exists := true; build_extracted := extract_leaves_files E url |}.

(** The stage after a successful staging of [b]. *)
Definition staged (b : build_info) : disk :=
  {| info := InfoJson (JValue b); omni_backup_exists := false;
     build_zip_exists := true; build_extracted := true |}.

(** The descriptor [stageBuild] writes. *)
Definition fresh_info (v : variant) (n p : string) : build_info :=
  {| buildNumber := Some n; buildPlatform := Some p; info_browserName := Some (browserName v) |}.

End BuildCache.

Definition sample_env : BuildCache.env :=
  {| BuildCache.host_platform := "ubuntu20.04";
     BuildCache.build_number_file := fun _ => Some "1234
";
     BuildCache.download_error := fun _ => None;
     BuildCache.download_leaves_zip := fun _ => false;
     BuildCache.extract_error := fun _ => None;
     BuildCache.extract_leaves_files := fun _ => false |}.


(** Downloads from a URL that is not an [https] URL fail: a URL without
    a host sends the request to the local host. *)
Definition offline_env : BuildCache.env :=
  {| BuildCache.host_platform := "ubuntu20.04"; BuildCache.build_number_file := fun _ => Some "1234";
     BuildCache.download_error := fun url =>
       if Js.starts_with "https://" url then None else Some "connect ECONNREFUSED 127.0.0.1:80";
     BuildCache.download_leaves_zip := fun _ => false;
     BuildCache.extract_error := fun _ => None; BuildCache.extract_leaves_files := fun _ => false |}.

(** A stage holding build 1234 for ubuntu20.04. *)
Definition cached_info : BuildCache.build_info :=
  BuildCache.fresh_info BuildCache.Firefox "1234" "ubuntu20.04".
Definition cached_disk : BuildCache.disk :=
  {| BuildCache.info := BuildCache.InfoJson (BuildCache.JValue cached_info);
     BuildCache.omni_backup_exists := true;
     BuildCache.build_zip_exists := true; BuildCache.build_extracted := true |}.

Definition empty_disk : BuildCache.disk := BuildCache.wiped.

(* ------------------------------------------------------------------ *)
(** ** [repackageJuggler]: finding and rebuilding the Juggler archive

    The file system is a finite map from paths to nodes.  A path is the
    list of its segments below the root.  A node is a file (plain data,
    or a zip archive given by its entries) or a directory.  A directory
    also exists when something lies below it; every directory that the
    script creates ([mkdir], [mkdir] with [recursive], extraction) is a
    node of its own, so it stays when its contents are removed.  The
    enumeration order of [listFiles(BUILD_DIRECTORY)] depends on the
    order in which the [lstat] promises settle, so [repackageJuggler]
    takes that listing as an argument. *)

Module Patcher.
Import Js.

Local Open Scope list_scope.

Definition path := list string.

Definition BUILD_DIRECTORY : path := ["tmp"; "repackaged-firefox"].
Definition OMNI_BACKUP_PATH : path := BUILD_DIRECTORY ++ ["omni.ja.backup"].
Definition OMNI_EXTRACT_DIR : path := BUILD_DIRECTORY ++ ["omni"].
Definition OMNI_JUGGLER_DIR : path := OMNI_EXTRACT_DIR ++ ["chrome"; "juggler"].

(** The string form of a path, as [listFiles] returns it. *)
Fixpoint path_string (p : path) : string :=
  match p with
  | [] => EmptyString
  | s :: rest => ("/" ++ s ++ path_string rest)%string
  end.

(** [path.join(base, rel)]: segments are appended and normalised
    ([""] and ["."] dropped, [".."] pops one segment). *)
Fixpoint normalize_go (acc : list string) (segs : list string) : path :=
  match segs with
  | [] => List.rev acc
  | s :: rest =>
      if String.eqb s "" || String.eqb s "." then normalize_go acc rest
      else if String.eqb s ".." then normalize_go (tl acc) rest
      else normalize_go (s :: acc) rest
  end.

Definition path_join (base : path) (rel : string) : path :=
  normalize_go (List.rev base) (split_on "/" rel).

(** [path.dirname(p)] *)
Definition path_dirname (p : path) : path := removelast p.

Fixpoint strip_prefix (pre p : path) : option path :=
  match pre, p with
  | [], _ => Some p
  | a :: pre', b :: p' => if String.eqb a b then strip_prefix pre' p' else None
  | _ :: _, [] => None
  end.

(** [p] is [dir] itself or lies below it. *)
Definition is_under (dir p : path) : bool :=
  match strip_prefix dir p with Some _ => true | None => false end.

(** [p] lies strictly below [dir]. *)
Definition is_below (dir p : path) : bool :=
  match strip_prefix dir p with Some (_ :: _) => true | _ => false end.

(** The non-empty prefixes of [p], [p] included: [a], [a/b], ... *)
Definition prefixes (p : path) : list path :=
  List.map (fun n => take n p) (List.seq 1 (List.length p)).

(** An entry of a zip archive: a file with its bytes, or a directory;
    either carries a comment. *)
Inductive zip_entry := ZFile (data comment : string) | ZDir (comment : string).

Definition entry_comment (e : zip_entry) : string :=
  match e with ZFile _ c => c | ZDir c => c end.

Definition entry_is_dir (e : zip_entry) : bool :=
  match e with ZDir _ => true | ZFile _ _ => false end.

(** A zip archive, by entry path: the [entryName] split at [/], without
    the final [/] of a directory entry. *)
Abbreviation archive := (gmap path zip_entry).

(** A node of the file system: a file holding plain data or a zip
    archive, or a directory. *)
Inductive content := Data (s : string) | Archive (entries : archive) | Dir.

Abbreviation fsys := (gmap path content).

Definition is_file (c : content) : bool :=
  match c with Dir => false | _ => true end.

(** *** [zipEntry.toString()] *)

Definition backslash : ascii := ascii_of_nat 92.
Definition dquote_char : ascii := ascii_of_nat 34.

Definition hex_digit (n : nat) : ascii :=
  ascii_of_nat (if Nat.ltb n 10 then 48 + n else 87 + n).

(** One character as [JSON.stringify] writes it inside a string: the
    quote, the backslash and the control characters are escaped, every
    other character is kept. *)
Definition json_char (c : ascii) : string :=
  let n := nat_of_ascii c in
  if Nat.eqb n 34 || Nat.eqb n 92 then String backslash (String c EmptyString)
  else if Nat.eqb n 8 then String backslash "b"
  else if Nat.eqb n 9 then String backslash "t"
  else if Nat.eqb n 10 then String backslash "n"
  else if Nat.eqb n 12 then String backslash "f"
  else if Nat.eqb n 13 then String backslash "r"
  else if Nat.ltb n 32 then
    String backslash ("u00" ++ String (hex_digit (n / 16)) (String (hex_digit (n mod 16)) EmptyString))
  else String c EmptyString.

Fixpoint json_escape (s : string) : string :=
  match s with
  | EmptyString => EmptyString
  | String c r => json_char c ++ json_escape r
  end.

(** [JSON.stringify(s)] for a string [s]. *)
Definition json_string (s : string) : string :=
  String dquote_char (json_escape s ++ String dquote_char EmptyString).

(** [zipEntry.entryName]: the segments joined by [/], with a final [/]
    for a directory. *)
Definition entryName (k : path) (e : zip_entry) : string :=
  join "/" k ++ (if entry_is_dir e then "/" else "").

(** [zipEntry.name]: the last segment of a file entry; for a directory
    entry, the part after its final [/], which is empty. *)
Definition entry_base_name (k : path) (e : zip_entry) : string :=
  if entry_is_dir e then "" else List.last k "".

Definition tab : string := String (ascii_of_nat 9) EmptyString.
Definition line_break : string := String (ascii_of_nat 10) EmptyString.

(** A member of an object as [JSON.stringify(_, null, "\t")] writes it. *)
Definition json_member (key value : string) : string :=
  line_break ++ tab ++ json_string key ++ ": " ++ value.

(** [zipEntry.toString()] is [JSON.stringify(zipEntry.toJSON(), null, "\t")],
    whose members are [entryName], [name], [comment], [isDirectory],
    [header], [compressedData] and [data].  The text below runs up to the
    opening brace of [header].  What follows it begins with a line break
    and renders the header fields (versions, flags, method name, an ISO
    date, checksum, sizes, offsets) and the two buffer sizes; it holds no
    [/], so an occurrence of [chrome/juggler] in the whole text lies in
    the part below. *)
Definition entry_to_string (k : path) (e : zip_entry) : string :=
  "{" ++ json_member "entryName" (json_string (entryName k e)) ++ ","
      ++ json_member "name" (json_string (entry_base_name k e)) ++ ","
      ++ json_member "comment" (json_string (entry_comment e)) ++ ","
      ++ json_member "isDirectory" (if entry_is_dir e then "true" else "false") ++ ","
      ++ json_member "header" "{".

(** Some entry of [zip.getEntries()] renders to a text that includes
    [chrome/juggler]. *)
Definition has_marker (z : archive) : bool :=
  existsb (fun kv => includes (entry_to_string kv.1 kv.2) "chrome/juggler") (map_to_list z).

(** *** File system operations *)

Inductive event :=
  | CopyFile (src dst : path)
  | ExtractAll (archive dir : path)
  | WriteZip (p : path)
  | InstallPreferences (dir : path).

Inductive stop := Thrown (message : string) | Exited (code : Z).

Definition M (A : Type) := fsys -> (stop + A) * fsys * list event.

Definition ret {A} (x : A) : M A := fun fs => (inr x, fs, []).
Definition raise {A} (e : stop) : M A := fun fs => (inl e, fs, []).
Definition bind {A B} (m : M A) (k : A -> M B) : M B := fun fs =>
  match m fs with
  | (inl e, fs', t) => (inl e, fs', t)
  | (inr x, fs', t) => let '(r, fs'', t') := k x fs' in (r, fs'', t ++ t')
  end.
Definition emit (e : event) : M unit := fun fs => (inr tt, fs, [e]).
Definition get_fs : M fsys := fun fs => (inr fs, fs, []).

Notation "x <- m ;; k" := (bind m (fun x => k)) (at level 100, m at next level, right associativity).

Definition ENOENT : stop := Thrown "ENOENT: no such file or directory".
Definition EISDIR : stop := Thrown "EISDIR: illegal operation on a directory".
Definition ENOTDIR : stop := Thrown "ENOTDIR: not a directory".

(** [fs.stat] succeeds on a file or a directory. *)
Definition path_exists (fs : fsys) (p : path) : bool :=
  existsb (fun kv => is_under p kv.1) (map_to_list fs).

(** [p] is a directory: the root, a directory node, or a path with
    something below it. *)
Definition is_directory (fs : fsys) (p : path) : bool :=
  match p with
  | [] => true
  | _ :: _ =>
      match fs !! p with
      | Some c => negb (is_file c)
      | None => existsb (fun kv => is_below p kv.1) (map_to_list fs)
      end
  end.

(** Directory nodes at the paths [qs]. *)
Definition dir_nodes (qs : list path) : fsys :=
  list_to_map (List.map (fun q => (q, Dir)) qs).

Definition remove_tree (p : path) (fs : fsys) : fsys :=
  filter (fun kv => is_under p kv.1 = false) fs.

(** [fs.promises.rm(p, { recursive: true })] *)
Definition rm_recursive (p : path) : M unit := fun fs =>
  if path_exists fs p then (inr tt, remove_tree p fs, []) else (inl ENOENT, fs, []).

(** [.catch(e => {})] *)
Definition catch_all (m : M unit) : M unit := fun fs =>
  match m fs with
  | (inl (Thrown _), fs', t) => (inr tt, fs', t)
  | r => r
  end.

(** [fs.promises.mkdir(p)]: fails when [p] exists or its parent is not
    a directory. *)
Definition mkdir (p : path) : M unit := fun fs =>
  if path_exists fs p then (inl (Thrown "EEXIST: file already exists"), fs, [])
  else if is_directory fs (path_dirname p) then (inr tt, <[p := Dir]> fs, [])
  else (inl ENOENT, fs, []).

(** [fs.promises.mkdir(p, { recursive: true })]: creates [p] and its
    missing ancestors; fails when [p] or an ancestor is a file. *)
Definition mkdir_recursive (p : path) : M unit := fun fs =>
  if existsb (fun q => match fs !! q with Some c => is_file c | None => false end) (prefixes p)
  then (inl ENOTDIR, fs, [])
  else (inr tt, fs ∪ dir_nodes (List.filter (fun q => negb (path_exists fs q)) (prefixes p)), []).

(** [fs.promises.copyFile(src, dst)]: [src] must be a file, [dst] must
    not be a directory, and the parent of [dst] must be one. *)
Definition copyFile (src dst : path) : M unit := fun fs =>
  match fs !! src with
  | Some c =>
      if negb (is_file c) || is_directory fs dst then (inl EISDIR, fs, [])
      else if is_directory fs (path_dirname dst) then (inr tt, <[dst := c]> fs, [CopyFile src dst])
      else (inl ENOENT, fs, [])
  | None => (inl (if is_directory fs src then EISDIR else ENOENT), fs, [])
  end.

(** [fs.promises.unlink(p)]: [p] must be a file. *)
Definition unlink (p : path) : M unit := fun fs =>
  match fs !! p with
  | Some c => if is_file c then (inr tt, delete p fs, []) else (inl EISDIR, fs, [])
  | None => (inl (if is_directory fs p then EISDIR else ENOENT), fs, [])
  end.

(** [new AdmZip(p)] *)
Definition openZip (p : path) : M archive := fun fs =>
  match fs !! p with
  | Some (Archive z) => (inr z, fs, [])
  | Some (Data _) => (inl (Thrown "Invalid or unsupported zip format. No END header found"), fs, [])
  | Some Dir => (inl EISDIR, fs, [])
  | None => (inl (if is_directory fs p then EISDIR else Thrown "Invalid filename"), fs, [])
  end.

Definition entry_content (e : zip_entry) : content :=
  match e with ZFile d _ => Data d | ZDir _ => Dir end.

(** Every entry path is a plain relative path (not empty, no empty,
    ["."] or [".."] segment), and no entry lies below a file entry. *)
Definition archive_plain (z : archive) : bool :=
  forallb (fun kv =>
             match kv.1 with [] => false | _ :: _ => true end
             && forallb (fun s => negb (String.eqb s "" || String.eqb s "." || String.eqb s "..")) kv.1
             && (entry_is_dir kv.2
                 || negb (existsb (fun kv' => is_below kv.1 kv'.1) (map_to_list z))))
          (map_to_list z).

(** The directories extraction creates for the entry at [k]: its
    ancestors. *)
Definition entry_dirs (k : path) : list path := prefixes (path_dirname k).

(** The nodes [zip.extractAllTo(dir, false, true)] adds below [dir]: a
    directory for each directory entry and each ancestor of an entry, a
    file for each file entry; an existing node is kept. *)
Definition extract (z : archive) (dir : path) (fs : fsys) : fsys :=
  fs ∪ kmap (M2 := gmap path) (app dir) (entry_content <$> z)
     ∪ dir_nodes (List.map (app dir) (List.concat (List.map (fun kv => entry_dirs kv.1) (map_to_list z)))).

(** [zip.extractAllTo(dir, false, true)].  For an archive that is not
    plain, adm-zip sanitises the entry names and, for an entry below a
    file entry, throws or skips the entry depending on the entry order;
    the model throws before writing. *)
Definition extractAllTo (archive_path : path) (z : archive) (dir : path) : M unit := fun fs =>
  if archive_plain z then (inr tt, extract z dir fs, [ExtractAll archive_path dir])
  else (inl (Thrown "Error: cannot extract the archive"), fs, []).

Section Patch.

(** The bytes [writeZip] stores for an archive that is itself packed as
    an entry; the zip encoding is not modelled. *)
Variable zip_bytes : archive -> string.
(** [__dirname] and [browserName]. *)
Variable dirname : path.
Variable browserName : string.

Definition JARMN_PATH : path := dirname ++ [browserName; "juggler"; "jar.mn"].
Definition juggler_src_dir : path := dirname ++ [browserName; "juggler"].

(** The bytes of a file (a directory has none). *)
Definition content_bytes (c : content) : string :=
  match c with Data s => s | Archive z => zip_bytes z | Dir => EmptyString end.

(** [fs.promises.readFile(p)]: [p] must be a file. *)
Definition readFile (p : path) : M string := fun fs =>
  match fs !! p with
  | Some c => if is_file c then (inr (content_bytes c), fs, []) else (inl EISDIR, fs, [])
  | None => (inl (if is_directory fs p then EISDIR else ENOENT), fs, [])
  end.

(** The file entry [zip.addLocalFolder(dir)] adds for a file strictly
    below [dir]: its path relative to [dir], its bytes, an empty
    comment. *)
Definition folder_file (dir : path) (kv : path * content) : option (path * zip_entry) :=
  match strip_prefix dir kv.1 with
  | Some (x :: rest) => if is_file kv.2 then Some (x :: rest, ZFile (content_bytes kv.2) "") else None
  | _ => None
  end.

(** The directories strictly below [dir] that a node shows, relative to
    [dir]: the ancestors of the node, and the node itself when it is a
    directory. *)
Definition folder_dirs (dir : path) (kv : path * content) : list path :=
  match strip_prefix dir kv.1 with
  | Some r => prefixes (path_dirname r) ++ (match r, is_file kv.2 with _ :: _, false => [r] | _, _ => [] end)
  | None => []
  end.

(** [zip.addLocalFolder(dir)]: an entry for every file and every
    directory below [dir] ([filetools.findFiles] walks the whole tree),
    named by its path relative to [dir], with an empty comment. *)
Definition addLocalFolder (dir : path) (fs : fsys) : archive :=
  (list_to_map (omap (folder_file dir) (map_to_list fs)) : archive)
  ∪ list_to_map (List.map (fun r => (r, ZDir "")) (List.concat (List.map (folder_dirs dir) (map_to_list fs)))).

(** [new AdmZip()], [zip.addLocalFolder(dir)] (which throws when [dir]
    is not a directory) and [zip.writeZip(p)].  [writeZip] creates the
    parent directory of [p] when it is missing; in [repackageJuggler],
    [p] is the file that [unlink] has just removed, and the model writes
    the file alone. *)
Definition writeZip (p dir : path) : M unit := fun fs =>
  if is_directory fs dir then (inr tt, <[p := Archive (addLocalFolder dir fs)]> fs, [WriteZip p])
  else (inl (Thrown "Error: File not found"), fs, []).

(** The [for] loop over [omniPaths]. *)
Fixpoint findJuggler (omniPaths : list path) : M (option path) :=
  match omniPaths with
  | [] => ret None
  | omniPath :: rest =>
      zip <- openZip omniPath;;
      if has_marker zip then ret (Some omniPath) else findJuggler rest
  end.

Definition newline : ascii := ascii_of_nat 10.

Definition jarLines (jarmn : string) : list string :=
  List.filter (fun line => starts_with "content/" line && ends_with ")" line)
    (List.map trim (split_on newline jarmn)).

(** The [for] loop over [jarLines]; [tokens[1].slice] throws on a line
    with a single token. *)
Fixpoint copyJarLines (lines : list string) : M unit :=
  match lines with
  | [] => ret tt
  | line :: rest =>
      match split_ws line with
      | tok0 :: tok1 :: _ =>
          let toPath := path_join OMNI_JUGGLER_DIR tok0 in
          let fromPath := path_join juggler_src_dir (slice_1_m1 tok1) in
          _ <- mkdir_recursive (path_dirname toPath);;
          _ <- copyFile fromPath toPath;;
          copyJarLines rest
      | _ => raise (Thrown "TypeError: Cannot read properties of undefined (reading 'slice')")
      end
  end.

Definition is_omni (p : path) : bool := ends_with "omni.ja" (path_string p).

Definition repackageJuggler (listing : list path) : M unit :=
  let omniPaths := List.filter is_omni listing in
  omniWithJugglerPath <- findJuggler omniPaths;;
  match omniWithJugglerPath with
  | None => raise (Exited 1)
  | Some target =>
      fs <- get_fs;;
      _ <- (if path_exists fs OMNI_BACKUP_PATH then ret tt
            else copyFile target OMNI_BACKUP_PATH);;
      _ <- catch_all (rm_recursive OMNI_EXTRACT_DIR);;
      _ <- mkdir OMNI_EXTRACT_DIR;;
      zip <- openZip OMNI_BACKUP_PATH;;
      _ <- extractAllTo OMNI_BACKUP_PATH zip OMNI_EXTRACT_DIR;;
      _ <- rm_recursive OMNI_JUGGLER_DIR;;
      jarmn <- readFile JARMN_PATH;;
      _ <- copyJarLines (jarLines jarmn);;
      _ <- unlink target;;
      _ <- writeZip target OMNI_EXTRACT_DIR;;
      emit (InstallPreferences (BUILD_DIRECTORY ++ ["firefox"]))
  end.

End Patch.

(** One enumeration order of [listFiles(dir)]: the files (not the
    directories) at or below [dir]. *)
Definition listFiles (dir : path) (fs : fsys) : list path :=
  List.map fst (List.filter (fun kv => is_under dir kv.1 && is_file kv.2) (map_to_list fs)).

End Patcher.

Definition patcher_dirname : Patcher.path := ["src"; "browser_patches"].

Definition sample_zip_bytes (z : Patcher.archive) : string := "PK".

Definition omni_path : Patcher.path :=
  (Patcher.BUILD_DIRECTORY ++ ["firefox"; "browser"; "omni.ja"])%list.

Definition shipped_omni : Patcher.content :=
  Patcher.Archive {[ ["chrome"] := Patcher.ZDir "";
                     ["chrome"; "juggler"] := Patcher.ZDir "";
                     ["chrome"; "juggler"; "content"] := Patcher.ZDir "";
                     ["chrome"; "juggler"; "content"; "main.js"] := Patcher.ZFile "shipped" "";
                     ["modules"; "Services.sys.mjs"] := Patcher.ZFile "services" "" ]}.

Definition sample_manifest : string :=
  "juggler.jar:
% content juggler %content/
  content/main.js (../main.js)
  content/Helper.js (Helper.js)".

Definition sample_fs (manifest : string) : Patcher.fsys :=
  {[ omni_path := shipped_omni;
     ["src"; "browser_patches"; "firefox"; "juggler"; "jar.mn"] := Patcher.Data manifest;
     ["src"; "browser_patches"; "firefox"; "main.js"] := Patcher.Data "tip main";
     ["src"; "browser_patches"; "firefox"; "juggler"; "Helper.js"] := Patcher.Data "tip helper" ]}.

Definition patch_once (manifest : string) :=
  Patcher.repackageJuggler sample_zip_bytes patcher_dirname "firefox"
    (Patcher.listFiles Patcher.BUILD_DIRECTORY (sample_fs manifest)) (sample_fs manifest).

(** What the manifest asks for, stated apart from the copy loop. *)
Module PatchSpec.
Import Js Patcher.
Local Open Scope list_scope.

(** The file at [p], if [p] holds one. *)
Definition file_at (fs : fsys) (p : path) : option content :=
  match fs !! p with
  | Some c => if is_file c then Some c else None
  | None => None
  end.



Section Spec.
Variable zip_bytes : archive -> string.
Variable dirname : path.
Variable browserName : string.

(** The kept lines of the manifest file at [JARMN_PATH]. *)
Definition manifest_lines (fs : fsys) : list string :=
  match file_at fs (JARMN_PATH dirname browserName) with
  | Some c => jarLines (content_bytes zip_bytes c)
  | None => []
  end.




End Spec.

End PatchSpec.

(** Inputs of the patcher runs used below. *)
Definition sample_run1 := patch_once sample_manifest.
Definition sample_fs1 : Patcher.fsys := snd (fst sample_run1).



(** A kept line with a single token. *)
Definition single_token_manifest : string :=
  "content/main.js (../main.js)
content/foo.js)".

(** A kept line whose tokens are separated by a no-break space (U+00A0),
    and the same line after a byte order mark (U+FEFF) and before a
    no-break space. *)
Definition nbsp : string := String (ascii_of_nat 194) (String (ascii_of_nat 160) EmptyString).
Definition bom : string :=
  String (ascii_of_nat 239) (String (ascii_of_nat 187) (String (ascii_of_nat 191) EmptyString)).
Definition unicode_line : string := "content/a.js" ++ nbsp ++ "(a.js)".
Definition unicode_manifest : string := bom ++ unicode_line ++ nbsp.



(* ------------------------------------------------------------------ *)
(** ** [EXECUTABLE_PATHS] and the report printed by [repackageJuggler] *)

Module Report.
Import Js.

Definition executable_table : list (string * list string) :=
  [("ubuntu18.04", ["firefox"; "firefox"]);
   ("ubuntu20.04", ["firefox"; "firefox"]);
   ("mac10.14", ["firefox"; "Nightly.app"; "Contents"; "MacOS"; "firefox"]);
   ("mac10.15", ["firefox"; "Nightly.app"; "Contents"; "MacOS"; "firefox"]);
   ("mac11", ["firefox"; "Nightly.app"; "Contents"; "MacOS"; "firefox"]);
   ("mac11-arm64", ["firefox"; "Nightly.app"; "Contents"; "MacOS"; "firefox"]);
   ("win64", ["firefox"; "firefox.exe"])].

Fixpoint assoc_segments (k : string) (l : list (string * list string)) : option (list string) :=
  match l with
  | [] => None
  | (k', x) :: r => if String.eqb k k' then Some x else assoc_segments k r
  end.

(** [EXECUTABLE_PATHS[buildPlatform]]: an own array of segments, a
    member inherited from [Object.prototype], or [undefined] ([None]). *)
Definition EXECUTABLE_PATHS (buildPlatform : string) : option (prop (list string)) :=
  get_prop (fun k => assoc_segments k executable_table) buildPlatform.

(** [path.join(BUILD_DIRECTORY, ...EXECUTABLE_PATHS[buildPlatform])];
    spreading [undefined], a function or [Object.prototype] throws a
    TypeError ([None]). *)
Definition executablePath (buildPlatform : string) : option Patcher.path :=
  match EXECUTABLE_PATHS buildPlatform with
  | Some (Own segs) => Some (Patcher.BUILD_DIRECTORY ++ segs)%list
  | _ => None
  end.

(** The names [DOWNLOAD_URLS[b]] and [EXECUTABLE_PATHS] inherit. *)
Definition object_prototype_names : list string := Js.object_prototype_names.

End Report.

(* ------------------------------------------------------------------ *)
(** ** Release files and stage descriptors, as the properties state them *)

Module ReleaseSpec.
Import Js.

(** Every character of [s] differs from [c]. *)
Fixpoint free_of (c : ascii) (s : string) : bool :=
  match s with
  | EmptyString => true
  | String d r => negb (Ascii.eqb d c) && free_of c r
  end.






End ReleaseSpec.


Module StageSpec.
Import Js BuildCache.

(** A stage descriptor names a variant and a platform with a download
    URL template of its own. *)
Definition descriptor_ok (f : info_file) : bool :=
  match f with
  | InfoMissing | InfoUnparseable => true
  | InfoJson JNull => false
  | InfoJson (JValue b) =>
      match info_browserName b, buildPlatform b with
      | Some n, Some p =>
          existsb (fun v => String.eqb (browserName v) n &&
                            match DOWNLOAD_URLS v p with Some (Own _) => true | _ => false end)
                  [Firefox; FirefoxBeta]
      | _, _ => false
      end
  end.

End StageSpec.

Module PatchFrame.
Import Js Patcher.

(** A manifest line's destination stays in the Juggler directory. *)
Definition dest_inside (line : string) : bool :=
  match split_ws line with
  | tok0 :: _ :: _ => is_under OMNI_JUGGLER_DIR (path_join OMNI_JUGGLER_DIR tok0)
  | _ => true
  end.


End PatchFrame.

(* ================================================================== *)
(** * Properties *)

(* ------------------------------------------------------------------ *)
(** ** Sample runs *)

Example js_split_ws :
  Js.split_ws "content/foo/bar.js (./foo/bar.js)" = ["content/foo/bar.js"; "(./foo/bar.js)"].
Proof. reflexivity. Qed.

Example js_parse_int : Js.parse_int " 18.04" = Some 18%Z /\ Js.parse_int "" = None
  /\ Js.num_to_string (Some 1015%Z) = "1015" /\ Js.num_to_string (Some 0%Z) = "0".
Proof. vm_compute. auto. Qed.

Example platform_samples :
  fst (Platform.getHostPlatform (mac_host "11.2.3
" "1
")) = "mac11-arm64" /\
  fst (Platform.getHostPlatform (mac_host "13.0" "0")) = "mac11" /\
  Platform.getHostPlatform (mac_host "10.15.7" "1") = ("mac10.15", [Platform.SwVersProductVersion]) /\
  fst (Platform.getHostPlatform (linux_host (Some ("NAME=" ++ Platform.dquote ++ "Ubuntu" ++ Platform.dquote ++ "
VERSION_ID=" ++ Platform.dquote ++ "18.04" ++ Platform.dquote)))) = "ubuntu18.04" /\
  fst (Platform.getHostPlatform (linux_host None)) = "ubuntu20.04".
Proof. vm_compute. repeat split. Qed.

Example download_samples :
  option_map Download.files (Download.downloadFile 5 sample_server "https://a/x" "/tmp/f.zip" ∅)
    = Some {["/tmp/f.zip" := "ZIPDATA"]} /\
  option_map Download.result (Download.downloadFile 5 sample_server "https://c/z" "/tmp/f.zip" ∅)
    = Some (Download.Rejected "Download failed: server returned code 404. URL: https://c/z").
Proof. vm_compute. split; reflexivity. Qed.

Example ensure_sample :
  let '(r, d, t) := BuildCache.ensureFirefoxBuild sample_env BuildCache.Firefox None None empty_disk in
  t = [BuildCache.ReadBuildNumberFile BuildCache.Firefox; BuildCache.ProbeHostPlatform;
       BuildCache.RemoveStage; BuildCache.MakeStage;
       BuildCache.DownloadTo "https://playwright.azureedge.net/builds/firefox/1234/firefox-ubuntu-20.04.zip"
         "/tmp/repackaged-firefox/firefox.zip";
       BuildCache.Extract "/tmp/repackaged-firefox/firefox.zip" "/tmp/repackaged-firefox" false true;
       BuildCache.WriteBuildInfo {| BuildCache.buildNumber := Some "1234";
         BuildCache.buildPlatform := Some "ubuntu20.04"; BuildCache.info_browserName := Some "firefox" |}]
  /\ fst (fst (BuildCache.ensureFirefoxBuild sample_env BuildCache.Firefox None None d)) = r
  /\ snd (BuildCache.ensureFirefoxBuild sample_env BuildCache.Firefox None None d)
     = [BuildCache.ReadBuildNumberFile BuildCache.Firefox; BuildCache.ProbeHostPlatform].
Proof. vm_compute. repeat split. Qed.

Example patch_sample :
  Patcher.jarLines sample_manifest = ["content/main.js (../main.js)"; "content/Helper.js (Helper.js)"]
  /\ snd (patch_once sample_manifest)
     = [Patcher.CopyFile omni_path Patcher.OMNI_BACKUP_PATH;
        Patcher.ExtractAll Patcher.OMNI_BACKUP_PATH Patcher.OMNI_EXTRACT_DIR;
        Patcher.CopyFile ["src"; "browser_patches"; "firefox"; "main.js"]
          (Patcher.OMNI_JUGGLER_DIR ++ ["content"; "main.js"])%list;
        Patcher.CopyFile ["src"; "browser_patches"; "firefox"; "juggler"; "Helper.js"]
          (Patcher.OMNI_JUGGLER_DIR ++ ["content"; "Helper.js"])%list;
        Patcher.WriteZip omni_path;
        Patcher.InstallPreferences (Patcher.BUILD_DIRECTORY ++ ["firefox"])%list].
Proof. split; vm_compute; reflexivity. Qed.


(* ------------------------------------------------------------------ *)
(** ** Helper lemmas on the string primitives *)

Module JsFacts.
Import Js.

(** stdpp makes [String.append] opaque to [simpl]; these are its equations. *)
Lemma append_cons (c : ascii) (s t : string) : (String c s ++ t)%string = String c (s ++ t).
Proof. reflexivity. Qed.

Lemma append_nil (t : string) : (EmptyString ++ t)%string = t.
Proof. reflexivity. Qed.

Lemma append_empty_r (s : string) : (s ++ EmptyString)%string = s.
Proof. induction s as [|c s IH]; [reflexivity | now rewrite append_cons, IH]. Qed.

Lemma rev_app_append (a b acc : string) :
  rev_app (a ++ b) acc = rev_app b (rev_app a acc).
Proof. revert acc. induction a as [|c a IH]; intros acc; [reflexivity | rewrite append_cons; simpl; auto]. Qed.

(** Every character of [s] differs from [c]. *)
Fixpoint lacks (c : ascii) (s : string) : bool :=
  match s with
  | EmptyString => true
  | String d r => negb (Ascii.eqb d c) && lacks c r
  end.

Lemma lacks_append c a b : lacks c (a ++ b) = lacks c a && lacks c b.
Proof. induction a as [|d a IH]; [reflexivity | rewrite append_cons; simpl; rewrite IH; apply andb_assoc]. Qed.

(** The first three characters exist and differ from ["m"]. *)
Definition first3_not_m (s : string) : bool :=
  match s with
  | String a (String b (String c _)) => lacks "m" (String a (String b (String c EmptyString)))
  | _ => false
  end.

Lemma first3_push c acc :
  Ascii.eqb c "m" = false -> first3_not_m acc = true -> first3_not_m (String c acc) = true.
Proof.
  intros Hc H. destruct acc as [|a [|b [|d r]]]; try discriminate.
  simpl in *. rewrite Hc. simpl.
  destruct (Ascii.eqb a "m"), (Ascii.eqb b "m"); simpl in *; auto.
Qed.

Lemma first3_rev_app m acc :
  lacks "m" m = true -> first3_not_m acc = true -> first3_not_m (rev_app m acc) = true.
Proof.
  revert acc. induction m as [|c m IH]; intros acc Hm Hacc; simpl in *; auto.
  apply andb_prop in Hm as [Hc Hm]. apply IH; auto.
  apply first3_push; auto. now apply negb_true_iff.
Qed.

Lemma first3_not_arm64 s : first3_not_m s = true -> starts_with "46mra-" s = false.
Proof.
  intros H. destruct s as [|a [|b [|c r]]]; try discriminate.
  unfold first3_not_m in H. cbn [lacks] in H.
  destruct (Ascii.eqb_spec c "m") as [->|Hc].
  - destruct (Ascii.eqb a "m"), (Ascii.eqb b "m"); discriminate.
  - cbn [starts_with].
    assert (Ascii.eqb "m" c = false) as -> by (apply Ascii.eqb_neq; congruence).
    destruct (Ascii.eqb "4" a), (Ascii.eqb "6" b); reflexivity.
Qed.

Lemma digit_not_m (n : N) : Ascii.eqb (ascii_of_N (48 + N.modulo n 10)) "m" = false.
Proof.
  destruct (Ascii.eqb_spec (ascii_of_N (48 + N.modulo n 10)) "m") as [E|]; [|reflexivity].
  exfalso. assert (Hlt : (N.modulo n 10 < 10)%N) by (apply N.mod_lt; lia).
  assert (Hemb : N_of_ascii (ascii_of_N (48 + N.modulo n 10)) = (48 + N.modulo n 10)%N)
    by (apply N_ascii_embedding; lia).
  rewrite E in Hemb. simpl in Hemb. lia.
Qed.

Lemma dec_go_lacks_m fuel n acc : lacks "m" acc = true -> lacks "m" (dec_go fuel n acc) = true.
Proof.
  revert n acc. induction fuel as [|f IH]; intros n acc H; simpl; auto.
  destruct (N.div n 10 =? 0)%N; simpl.
  - now rewrite digit_not_m.
  - apply IH. simpl. now rewrite digit_not_m.
Qed.

Lemma elem_to_string_lacks_m x : lacks "m" (elem_to_string x) = true.
Proof.
  destruct x as [[z|]|]; simpl; auto.
  unfold num_to_string. destruct (z <? 0)%Z; simpl; unfold dec_N; apply dec_go_lacks_m; auto.
Qed.

End JsFacts.

(* ------------------------------------------------------------------ *)
(** ** Host platform *)

Module PlatformFacts.
Import Js Platform JsFacts.

Ltac darwin_branch Hd :=
  unfold getHostPlatform; rewrite Hd; cbn [String.eqb Ascii.eqb Bool.eqb andb].

(** C5: on darwin, version 11 with the arm64 probe answering ["1"] gives
    ["mac11-arm64"]; any major version above 11 is clamped to the mac11
    tag, with the arm64 suffix exactly when the probe reports arm64. *)
Theorem darwin_arm64_and_clamp (h : host) :
  os_platform h = "darwin" ->
  ((product_version_parts h !! 0 = Some (Some 11%Z) -> arm64_probe h = true ->
    fst (getHostPlatform h) = "mac11-arm64") /\
   (forall major : Z, product_version_parts h !! 0 = Some (Some major) -> (11 < major)%Z ->
    fst (getHostPlatform h) = "mac11" ++ (if arm64_probe h then "-arm64" else ""))).
Proof.
  intros Hd. split.
  - intros Hm Ha. darwin_branch Hd. rewrite Hm, Ha. reflexivity.
  - intros major Hm Hgt. darwin_branch Hd. rewrite Hm.
    unfold num_ge, num_eq, num_gt, LAST_STABLE_MAC_MAJOR_VERSION.
    replace (11 <=? major)%Z with true by (symmetry; apply Z.leb_le; lia).
    replace (major =? 10)%Z with false by (symmetry; apply Z.eqb_neq; lia).
    replace (11 <? major)%Z with true by (symmetry; apply Z.ltb_lt; lia).
    destruct (arm64_probe h); reflexivity.
Qed.

(** C10: on darwin with major version 10 the tag is ["mac10.<minor>"],
    only [sw_vers] runs (the arm64 probe does not), and the tag does not
    end in ["-arm64"]. *)
Theorem darwin_10_minor_tag (h : host) :
  os_platform h = "darwin" ->
  product_version_parts h !! 0 = Some (Some 10%Z) ->
  getHostPlatform h = ("mac10." ++ elem_to_string (product_version_parts h !! 1),
                       [SwVersProductVersion]) /\
  ~ In SysctlArm64 (snd (getHostPlatform h)) /\
  ends_with "-arm64" (fst (getHostPlatform h)) = false.
Proof.
  intros Hd Hm.
  assert (Hgp : getHostPlatform h = ("mac10." ++ elem_to_string (product_version_parts h !! 1),
                                     [SwVersProductVersion])).
  { darwin_branch Hd. rewrite Hm. simpl. now rewrite append_empty_r. }
  rewrite Hgp. split; [reflexivity|]. split.
  - simpl. intros [H|H]; [discriminate | exact H].
  - simpl fst. unfold ends_with, string_rev.
    change ("mac10." ++ elem_to_string (product_version_parts h !! 1))%string
      with ("mac10." ++ elem_to_string (product_version_parts h !! 1))%string.
    rewrite rev_app_append. simpl rev_app at 2.
    apply first3_not_arm64, first3_rev_app; [apply elem_to_string_lacks_m | reflexivity].
Qed.

(** C6: on linux the tag is ["ubuntu18.04"] exactly when [parseInt] of the
    version read from the release file is a number at most 19, and
    ["ubuntu20.04"] otherwise, in particular when the file cannot be read;
    when the file is read, the version is extracted from its text. *)
Theorem linux_version_bucket (h : host) :
  os_platform h = "linux" ->
  let file := if file_exists h upstream_lsb_release then upstream_lsb_release else os_release in
  (fst (getHostPlatform h) = "ubuntu18.04" <->
     exists v, parse_int (getUbuntuVersionSync h) = Some v /\ (v <= 19)%Z) /\
  (fst (getHostPlatform h) = "ubuntu18.04" \/ fst (getHostPlatform h) = "ubuntu20.04") /\
  (parse_int (getUbuntuVersionSync h) = None -> fst (getHostPlatform h) = "ubuntu20.04") /\
  (read_text_file h file = None -> fst (getHostPlatform h) = "ubuntu20.04") /\
  (forall t, read_text_file h file = Some t -> t <> EmptyString ->
     getUbuntuVersionSync h = getUbuntuVersionInternal t).
Proof.
  intros Hl file.
  assert (Hg : fst (getHostPlatform h) =
    match parse_int (getUbuntuVersionSync h) with
    | Some v => if (v <=? 19)%Z then "ubuntu18.04" else "ubuntu20.04"
    | None => "ubuntu20.04" end).
  { unfold getHostPlatform. rewrite Hl. simpl.
    destruct (parse_int (getUbuntuVersionSync h)) as [v|]; [destruct (v <=? 19)%Z|]; reflexivity. }
  assert (Hs : forall t, read_text_file h file = t -> getUbuntuVersionSync h =
             match t with None => EmptyString
             | Some t => if String.eqb t EmptyString then EmptyString else getUbuntuVersionInternal t end).
  { intros t Ht. unfold getUbuntuVersionSync. rewrite Hl. simpl. subst file.
    destruct (file_exists h upstream_lsb_release); rewrite Ht; reflexivity. }
  rewrite Hg. split; [|split; [|split; [|split]]].
  - destruct (parse_int (getUbuntuVersionSync h)) as [v|].
    + destruct (v <=? 19)%Z eqn:E.
      * split; [intros _; exists v; split; auto; now apply Z.leb_le|auto].
      * split; [discriminate|]. intros [w [Hw Hle]]. injection Hw as <-.
        apply Z.leb_nle in E. lia.
    + split; [discriminate|]. intros [w [Hw _]]. discriminate.
  - destruct (parse_int (getUbuntuVersionSync h)) as [v|]; [destruct (v <=? 19)%Z|]; auto.
  - intros ->. reflexivity.
  - intros Hn. rewrite (Hs None Hn). reflexivity.
  - intros t Ht Hne. rewrite (Hs (Some t) Ht).
    destruct (String.eqb_spec t EmptyString); [contradiction | reflexivity].
Qed.

End PlatformFacts.

(* ------------------------------------------------------------------ *)
(** ** Downloads *)

Module DownloadFacts.
Import Js JsFacts Download.

Lemma append_assoc (a b c : string) : ((a ++ b) ++ c)%string = (a ++ (b ++ c))%string.
Proof. induction a as [|d a IH]; [reflexivity | rewrite !append_cons, IH; reflexivity]. Qed.

Lemma starts_with_self (p b : string) : starts_with p (p ++ b) = true.
Proof.
  induction p as [|c p IH]; [destruct b; reflexivity|].
  rewrite append_cons. simpl. now rewrite Ascii.eqb_refl, IH.
Qed.

Lemma includes_infix (a p b : string) : includes (a ++ (p ++ b)) p = true.
Proof.
  induction a as [|c a IH].
  - rewrite append_nil. destruct (p ++ b)%string eqn:E; simpl;
      rewrite <- E, starts_with_self; reflexivity.
  - rewrite append_cons. simpl. rewrite IH. apply orb_true_r.
Qed.

Lemma includes_suffix (a p : string) : includes (a ++ p) p = true.
Proof.
  pose proof (includes_infix a p EmptyString) as H. now rewrite append_empty_r in H.
Qed.

(** A chain of redirects ending in a response that is not a redirect is
    followed hop by hop, whatever its length. *)
Lemma httpRequest_chain serve u hops last fuel :
  redirects_to serve u hops last -> is_redirect (serve last) = false ->
  List.length hops < fuel ->
  httpRequest fuel serve u = Some (u :: hops, serve last).
Proof.
  revert u fuel. induction hops as [|v rest IH]; intros u fuel Hc Hl Hf;
    destruct fuel as [|f]; simpl in *; try lia.
  - subst u. now rewrite Hl.
  - destruct Hc as [Hr [Hloc Hc]]. rewrite Hr, Hloc.
    rewrite (IH v f Hc Hl ltac:(lia)). reflexivity.
Qed.

(** C3: a chain of redirects of any length ending in a 200 response:
    every [Location] is requested in turn and the destination file holds
    exactly the body of the final response. *)
Theorem download_follows_redirects (serve : server) (u last dest : string)
  (hops : list string) (fs : gmap string string) (fuel : nat) :
  redirects_to serve u hops last -> statusCode (serve last) = 200%Z ->
  List.length hops < fuel ->
  downloadFile fuel serve u dest fs =
    Some {| requested := u :: hops; result := Fulfilled;
            files := <[dest := body (serve last)]> fs; drained := false |} /\
  (<[dest := body (serve last)]> fs : gmap string string) !! dest = Some (body (serve last)).
Proof.
  intros Hc H200 Hf. split; [|apply lookup_insert_eq].
  assert (Hnr : is_redirect (serve last) = false) by (unfold is_redirect; rewrite H200; reflexivity).
  unfold downloadFile. rewrite (httpRequest_chain serve u hops last fuel Hc Hnr Hf), H200.
  reflexivity.
Qed.

(** C7: when the response that ends the redirect chain is not a redirect
    and its status is not 200, the body is drained, the file system is
    left as it was, and the promise is rejected with a message that
    contains the status code and the requested URL. *)
Theorem download_rejects_non_200 (serve : server) (u last dest : string)
  (hops : list string) (fs : gmap string string) (fuel : nat) :
  redirects_to serve u hops last -> is_redirect (serve last) = false ->
  statusCode (serve last) <> 200%Z -> List.length hops < fuel ->
  exists msg,
    downloadFile fuel serve u dest fs =
      Some {| requested := u :: hops; result := Rejected msg; files := fs; drained := true |} /\
    includes msg (num_to_string (Some (statusCode (serve last)))) = true /\
    includes msg u = true.
Proof.
  intros Hc Hnr Hne Hf.
  exists (failure_message (statusCode (serve last)) u). split; [|split].
  - unfold downloadFile. rewrite (httpRequest_chain serve u hops last fuel Hc Hnr Hf).
    replace (statusCode (serve last) =? 200)%Z with false by (symmetry; now apply Z.eqb_neq).
    reflexivity.
  - unfold failure_message. apply includes_infix.
  - unfold failure_message.
    rewrite <- !append_assoc. apply includes_suffix.
Qed.

End DownloadFacts.

(* ------------------------------------------------------------------ *)
(** ** The build cache *)

Module BuildCacheFacts.
Import Js BuildCache.
Local Open Scope list_scope.

Lemma bind_ok {A B} (m : M A) (k : A -> M B) d x d' t :
  m d = (inr x, d', t) ->
  bind m k d = (fst (fst (k x d')), snd (fst (k x d')), t ++ snd (k x d')).
Proof. intros H. unfold bind. rewrite H. now destruct (k x d') as [[r d''] t']. Qed.

(** Resolving the request reads no disk state and does no work. *)
Lemma resolveBuildNumber_disk E v bn d r d' t :
  resolveBuildNumber E v bn d = (r, d', t) ->
  d' = d /\ existsb is_work t = false /\ forall d2, resolveBuildNumber E v bn d2 = (r, d2, t).
Proof.
  unfold resolveBuildNumber. destruct (absent bn).
  - unfold bind, emit. destruct (build_number_file E v); cbn;
      intros H; injection H as <- <- <-; auto.
  - unfold ret. intros H; injection H as <- <- <-; auto.
Qed.

Lemma resolveBuildPlatform_disk E bp d r d' t :
  resolveBuildPlatform E bp d = (r, d', t) ->
  d' = d /\ existsb is_work t = false /\ forall d2, resolveBuildPlatform E bp d2 = (r, d2, t).
Proof.
  unfold resolveBuildPlatform. destruct (absent bp).
  - unfold bind, emit, ret. cbn. intros H; injection H as <- <- <-; auto.
  - unfold ret. intros H; injection H as <- <- <-; auto.
Qed.

(** [ensureFirefoxBuild] once the request is resolved and the descriptor read. *)
Lemma ensure_unfold E v bn bp d n p tb tp cur :
  resolveBuildNumber E v bn d = (inr n, d, tb) ->
  resolveBuildPlatform E bp d = (inr p, d, tp) ->
  currentBuildInfo (info d) = Some cur ->
  ensureFirefoxBuild E v bn bp d =
    if matches cur v n p then (inr cur, d, tb ++ tp)
    else (fst (fst (stageBuild E v n p d)), snd (fst (stageBuild E v n p d)),
          tb ++ tp ++ snd (stageBuild E v n p d)).
Proof.
  intros Hb Hp Hc. unfold ensureFirefoxBuild.
  rewrite (bind_ok _ _ _ _ _ _ Hb). cbv beta.
  rewrite (bind_ok _ _ _ _ _ _ Hp). cbv beta.
  unfold bind, get_disk. cbv beta iota. rewrite Hc.
  destruct (matches cur v n p).
  - unfold ret. cbn. now rewrite !app_nil_r.
  - destruct (stageBuild E v n p d) as [[r d'] t]. reflexivity.
Qed.

Ltac run_stage :=
  unfold stageBuild, bind, emit, put_disk, throw, ret; cbn -[DOWNLOAD_URLS util_format].


Lemma stage_no_url E v n p d :
  DOWNLOAD_URLS v p = None ->
  stageBuild E v n p d =
    (inl ("ERROR: repack-juggler does not support " ++ p)%string, wiped, [RemoveStage; MakeStage]).
Proof. intros H. run_stage. now rewrite H. Qed.

Lemma stage_download_error E v n p d x e :
  DOWNLOAD_URLS v p = Some x -> download_error E (util_format x n) = Some e ->
  stageBuild E v n p d =
    (inl e, download_failed E (util_format x n),
     [RemoveStage; MakeStage; DownloadTo (util_format x n) buildZipPath]).
Proof. intros H He. run_stage. rewrite H. cbn -[util_format]. now rewrite He. Qed.

Lemma stage_extract_error E v n p d x e :
  DOWNLOAD_URLS v p = Some x -> download_error E (util_format x n) = None ->
  extract_error E (util_format x n) = Some e ->
  stageBuild E v n p d =
    (inl e, extract_failed E (util_format x n),
     [RemoveStage; MakeStage; DownloadTo (util_format x n) buildZipPath;
      Extract buildZipPath BUILD_DIRECTORY false true]).
Proof.
  intros H Hd Hx. run_stage. rewrite H. cbn -[util_format]. rewrite Hd. cbn -[util_format].
  now rewrite Hx.
Qed.

Lemma stage_ok E v n p d x :
  DOWNLOAD_URLS v p = Some x ->
  download_error E (util_format x n) = None -> extract_error E (util_format x n) = None ->
  stageBuild E v n p d =
    (inr (fresh_info v n p), staged (fresh_info v n p),
     [RemoveStage; MakeStage; DownloadTo (util_format x n) buildZipPath;
      Extract buildZipPath BUILD_DIRECTORY false true; WriteBuildInfo (fresh_info v n p)]).
Proof.
  intros H Hd Hx. run_stage. rewrite H. cbn -[util_format]. rewrite Hd. cbn -[util_format].
  now rewrite Hx.
Qed.









Lemma empty_info_never_matches v n p : matches empty_info v n p = false.
Proof. unfold matches. rewrite andb_false_iff. right. destruct v; reflexivity. Qed.



End BuildCacheFacts.

(* ------------------------------------------------------------------ *)
(** ** [repackageJuggler] *)

Module PatcherFacts.
Import Js Patcher PatchSpec.
Local Open Scope list_scope.





(** *** Paths *)

Lemma strip_prefix_spec (pre p r : path) : strip_prefix pre p = Some r <-> p = pre ++ r.
Proof.
  revert p. induction pre as [|a pre IH]; intros [|b p]; simpl.
  - split; congruence.
  - split; congruence.
  - split; discriminate.
  - destruct (String.eqb_spec a b) as [->|Hne].
    + rewrite IH. split; [intros ->|intros [= ->]]; reflexivity.
    + split; [discriminate|intros [= -> _]; contradiction].
Qed.

Lemma is_under_spec (dir p : path) : is_under dir p = true <-> exists r, p = dir ++ r.
Proof.
  unfold is_under. destruct (strip_prefix dir p) as [r|] eqn:E.
  - apply strip_prefix_spec in E. split; eauto.
  - split; [discriminate|]. intros [r ->].
    assert (strip_prefix dir (dir ++ r) = Some r) by (apply strip_prefix_spec; reflexivity).
    congruence.
Qed.

Lemma is_under_app (dir r : path) : is_under dir (dir ++ r) = true.
Proof. apply is_under_spec. eauto. Qed.

Lemma is_under_refl (dir : path) : is_under dir dir = true.
Proof. rewrite <- (app_nil_r dir) at 2. apply is_under_app. Qed.

Lemma is_under_weaken (a b p : path) : is_under (a ++ b) p = true -> is_under a p = true.
Proof.
  rewrite !is_under_spec. intros [r ->]. exists (b ++ r). symmetry. apply app_assoc.
Qed.

Lemma is_under_false_weaken (a b p : path) : is_under a p = false -> is_under (a ++ b) p = false.
Proof.
  intros H. destruct (is_under (a ++ b) p) eqn:E; [|reflexivity].
  apply is_under_weaken in E. congruence.
Qed.

Lemma is_under_trans (a b c : path) : is_under a b = true -> is_under b c = true -> is_under a c = true.
Proof.
  rewrite !is_under_spec. intros [r1 ->] [r2 ->]. exists (r1 ++ r2). symmetry. apply app_assoc.
Qed.

(** Two prefixes of one path are prefixes of each other. *)
Lemma is_under_comparable (a b p : path) :
  is_under a p = true -> is_under b p = true -> is_under a b = true \/ is_under b a = true.
Proof.
  rewrite !is_under_spec. intros [r1 ->] [r2 Heq].
  apply app_eq_app in Heq as [k [[-> _]|[-> _]]].
  - right. exists k. reflexivity.
  - left. exists k. reflexivity.
Qed.

Lemma is_below_spec (dir p : path) : is_below dir p = true <-> exists x r, p = dir ++ x :: r.
Proof.
  unfold is_below. destruct (strip_prefix dir p) as [[|x r]|] eqn:E.
  - apply strip_prefix_spec in E. subst p. split; [discriminate|].
    intros (x & r & Hx). apply app_inv_head in Hx. discriminate.
  - apply strip_prefix_spec in E. split; eauto.
  - split; [discriminate|]. intros (x & r & ->).
    assert (strip_prefix dir (dir ++ x :: r) = Some (x :: r)) by (apply strip_prefix_spec; reflexivity).
    congruence.
Qed.

Lemma under_ne (dir p q : path) : is_under dir p = true -> is_under dir q = false -> p <> q.
Proof. intros Hp Hq ->. congruence. Qed.

Lemma prefixes_under (k p : path) : In k (prefixes p) -> is_under k p = true.
Proof.
  unfold prefixes. rewrite in_map_iff. intros [n [<- _]].
  apply is_under_spec. exists (drop n p). symmetry. apply take_drop.
Qed.

Lemma dirname_under (a : path) (x : string) (p : path) :
  is_under (a ++ [x]) p = true -> is_under a (path_dirname p) = true.
Proof.
  rewrite !is_under_spec. intros [r ->]. unfold path_dirname.
  rewrite <- app_assoc. simpl. rewrite removelast_app by discriminate.
  eauto.
Qed.


Lemma juggler_under_extract (p : path) :
  is_under OMNI_JUGGLER_DIR p = true -> is_under OMNI_EXTRACT_DIR p = true.
Proof.
  change OMNI_JUGGLER_DIR with (OMNI_EXTRACT_DIR ++ ["chrome"; "juggler"]).
  apply is_under_weaken.
Qed.

Lemma extract_dir_under_stage (p : path) :
  is_under BUILD_DIRECTORY p = false -> is_under OMNI_EXTRACT_DIR p = false.
Proof. apply is_under_false_weaken. Qed.

Lemma juggler_in_extract p : is_under OMNI_EXTRACT_DIR p = false -> is_under OMNI_JUGGLER_DIR p = false.
Proof. apply is_under_false_weaken. Qed.

Lemma backup_outside_extract : is_under OMNI_EXTRACT_DIR OMNI_BACKUP_PATH = false.
Proof. reflexivity. Qed.


Lemma backup_under_stage : is_under BUILD_DIRECTORY OMNI_BACKUP_PATH = true.
Proof. reflexivity. Qed.

Lemma backup_not_omni : is_omni OMNI_BACKUP_PATH = false.
Proof. reflexivity. Qed.

(** *** The file system *)

Lemma path_exists_spec (fs : fsys) (p : path) :
  path_exists fs p = true <-> exists q c, fs !! q = Some c /\ is_under p q = true.
Proof.
  unfold path_exists. rewrite existsb_exists. split.
  - intros [[q c] [Hin Hq]]. apply list_elem_of_In, elem_of_map_to_list in Hin. eauto.
  - intros (q & c & Hq & Hu). exists (q, c). split; [|exact Hu].
    apply list_elem_of_In, elem_of_map_to_list. exact Hq.
Qed.

Lemma path_exists_lookup (fs : fsys) (p : path) c : fs !! p = Some c -> path_exists fs p = true.
Proof. intros H. apply path_exists_spec. exists p, c. split; [exact H|apply is_under_refl]. Qed.


Lemma path_exists_up (fs : fsys) (p q : path) :
  path_exists fs p = true -> is_under q p = true -> path_exists fs q = true.
Proof.
  rewrite !path_exists_spec. intros (k & c & Hk & Hu) Hq.
  exists k, c. split; [exact Hk|]. eapply is_under_trans; eassumption.
Qed.

Lemma path_exists_grow (fs fs' : fsys) (p : path) :
  (forall k, fs !! k <> None -> fs' !! k <> None) ->
  path_exists fs p = true -> path_exists fs' p = true.
Proof.
  rewrite !path_exists_spec. intros Hg (k & c & Hk & Hu).
  destruct (fs' !! k) as [c'|] eqn:E.
  - eauto.
  - exfalso. apply (Hg k); congruence.
Qed.

Lemma lookup_grow_insert (fs : fsys) i x k : fs !! k <> None -> <[i := x]> fs !! k <> None.
Proof.
  intros H. destruct (decide (i = k)) as [->|Hne].
  - rewrite lookup_insert_eq. discriminate.
  - rewrite lookup_insert_ne by exact Hne. exact H.
Qed.

Lemma remove_tree_lookup (p k : path) (fs : fsys) :
  remove_tree p fs !! k = if is_under p k then None else fs !! k.
Proof.
  unfold remove_tree. destruct (is_under p k) eqn:E.
  - apply map_lookup_filter_None. right. intros x _. simpl. congruence.
  - destruct (fs !! k) as [c|] eqn:F.
    + apply map_lookup_filter_Some. split; [exact F|exact E].
    + apply map_lookup_filter_None. left. exact F.
Qed.

Lemma dir_nodes_lookup (qs : list path) (k : path) :
  (dir_nodes qs !! k = None /\ ~ In k qs) \/ (dir_nodes qs !! k = Some Dir /\ In k qs).
Proof.
  unfold dir_nodes. induction qs as [|q qs IH]; simpl.
  - left. split; [reflexivity|tauto].
  - destruct (decide (q = k)) as [->|Hne].
    + right. rewrite lookup_insert_eq. auto.
    + rewrite lookup_insert_ne by exact Hne. destruct IH as [[H1 H2]|[H1 H2]].
      * left. split; [exact H1|]. intros [H|H]; contradiction.
      * right. auto.
Qed.

Lemma file_at_dir (fs : fsys) p : fs !! p = Some Dir -> file_at fs p = None.
Proof. unfold file_at. intros ->. reflexivity. Qed.

Lemma file_at_insert_dir (fs : fsys) q p : fs !! q = None -> file_at (<[q := Dir]> fs) p = file_at fs p.
Proof.
  intros Hq. unfold file_at. destruct (decide (q = p)) as [->|Hne].
  - rewrite lookup_insert_eq, Hq. reflexivity.
  - rewrite lookup_insert_ne by exact Hne. reflexivity.
Qed.

Lemma file_at_insert_ne (fs : fsys) q c p : q <> p -> file_at (<[q := c]> fs) p = file_at fs p.
Proof. intros Hne. unfold file_at. rewrite lookup_insert_ne by exact Hne. reflexivity. Qed.



(** [mkdir] with [recursive] only adds directories where nothing exists. *)
Lemma mkdir_recursive_ok (p : path) fs u fs' t :
  mkdir_recursive p fs = (inr u, fs', t) ->
  t = [] /\
  forall k, fs' !! k = fs !! k \/
            (fs !! k = None /\ path_exists fs k = false /\ In k (prefixes p) /\ fs' !! k = Some Dir).
Proof.
  unfold mkdir_recursive.
  destruct (existsb _ (prefixes p)); [discriminate|]. intros [= _ <- <-]. split; [reflexivity|].
  intros k. destruct (fs !! k) as [c|] eqn:E.
  - left. apply lookup_union_Some_l. exact E.
  - rewrite lookup_union_r by exact E.
    destruct (dir_nodes_lookup (List.filter (fun q => negb (path_exists fs q)) (prefixes p)) k)
      as [[H1 _]|[H1 H2]].
    + left. exact H1.
    + right. apply filter_In in H2 as [H2 H3]. apply negb_true_iff in H3. auto.
Qed.

Lemma mkdir_recursive_err (p : path) fs e fs' t :
  mkdir_recursive p fs = (inl e, fs', t) -> fs' = fs.
Proof.
  unfold mkdir_recursive. destruct (existsb _ _); [intros [= _ <- _]; reflexivity|discriminate].
Qed.

Lemma copyFile_err (src dst : path) fs e fs' t :
  copyFile src dst fs = (inl e, fs', t) -> fs' = fs.
Proof.
  unfold copyFile. destruct (fs !! src) as [c|]; [|intros [= _ <- _]; reflexivity].
  destruct (_ || _); [intros [= _ <- _]; reflexivity|].
  destruct (is_directory fs _); [discriminate|intros [= _ <- _]; reflexivity].
Qed.

Lemma copyFile_ok (src dst : path) fs u fs' t :
  copyFile src dst fs = (inr u, fs', t) ->
  exists c, fs !! src = Some c /\ is_file c = true /\ fs' = <[dst := c]> fs /\ t = [CopyFile src dst].
Proof.
  unfold copyFile. destruct (fs !! src) as [c|]; [|discriminate].
  destruct (negb (is_file c) || is_directory fs dst) eqn:E; [discriminate|].
  destruct (is_directory fs (path_dirname dst)); [|discriminate].
  intros [= _ <- <-]. apply orb_false_iff in E as [E _]. apply negb_false_iff in E. eauto.
Qed.

Lemma extract_outside (z : archive) (dir k : path) (fs : fsys) :
  is_under dir k = false -> extract z dir fs !! k = fs !! k.
Proof.
  intros H. unfold extract. rewrite lookup_union_l.
  - apply lookup_union_l.
    apply lookup_kmap_None; [intros i j; apply app_inv_head|]. intros i Hi. exfalso. subst k.
    pose proof (is_under_app dir i) as Hu. simpl in *. congruence.
  - destruct (dir_nodes_lookup (List.map (app dir) (List.concat (List.map (fun kv => entry_dirs kv.1) (map_to_list z)))) k)
      as [[H1 _]|[_ H2]]; [exact H1|].
    exfalso. apply in_map_iff in H2 as [r [<- _]]. rewrite is_under_app in H. discriminate.
Qed.


Lemma openZip_ok (p : path) fs z fs' t :
  openZip p fs = (inr z, fs', t) -> fs !! p = Some (Archive z) /\ fs' = fs /\ t = [].
Proof.
  unfold openZip. destruct (fs !! p) as [[s|z'|]|]; try discriminate.
  intros [= <- <- <-]. auto.
Qed.

(** *** [addLocalFolder] *)

Section Bytes.
Variable zb : archive -> string.




End Bytes.

(** *** [findJuggler] *)

Lemma findJuggler_pure (l : list path) fs r fs' t :
  findJuggler l fs = (r, fs', t) -> fs' = fs /\ t = [].
Proof.
  revert fs r fs' t. induction l as [|p l IH]; intros fs r fs' t H.
  - simpl in H. unfold ret in H. injection H as <- <- <-. auto.
  - simpl in H. unfold bind, openZip in H.
    destruct (fs !! p) as [[s|z|]|]; try (injection H as <- <- <-; auto).
    destruct (has_marker z).
    + unfold ret in H. injection H as <- <- <-. auto.
    + destruct (findJuggler l fs) as [[r' fs2] t2] eqn:E.
      apply IH in E as [-> ->]. injection H as <- <- <-. auto.
Qed.




Lemma findJuggler_some_in (l : list path) fs c fs' t :
  findJuggler l fs = (inr (Some c), fs', t) -> In c l.
Proof.
  revert fs fs' t. induction l as [|p l IH]; intros fs fs' t H; simpl in H.
  - discriminate.
  - unfold bind, openZip in H.
    destruct (fs !! p) as [[s|z|]|]; try discriminate.
    destruct (has_marker z).
    + unfold ret in H. injection H as -> _ _. left. reflexivity.
    + destruct (findJuggler l fs) as [[r' fs2] t2] eqn:E.
      injection H as -> _ _. right. eapply IH. exact E.
Qed.

Lemma in_filter_omni (l : list path) p : In p (List.filter is_omni l) -> In p l /\ is_omni p = true.
Proof. apply filter_In. Qed.

Lemma target_not_backup (l : list path) fs target fs' t :
  findJuggler (List.filter is_omni l) fs = (inr (Some target), fs', t) -> target <> OMNI_BACKUP_PATH.
Proof.
  intros H ->. apply findJuggler_some_in, in_filter_omni in H as [_ H].
  rewrite backup_not_omni in H. discriminate.
Qed.


(** *** A run that completes *)


(** *** The copy loop *)


Import PatchFrame.

(** Outside the extraction directory, the copy loop changes nothing, as
    long as the extraction directory exists. *)
Lemma copy_frame dir br (lines : list string) fs r fs1 t :
  forallb dest_inside lines = true ->
  path_exists fs OMNI_EXTRACT_DIR = true ->
  copyJarLines dir br lines fs = (r, fs1, t) ->
  forall p, is_under OMNI_EXTRACT_DIR p = false -> fs1 !! p = fs !! p.
Proof.
  revert fs r fs1 t. induction lines as [|line lines IH]; intros fs r fs1 t Hwf Hex H p Hp.
  - simpl in H. unfold ret in H. injection H as _ <- _. reflexivity.
  - simpl in Hwf. apply andb_prop in Hwf as [Hline Hwf]. unfold dest_inside in Hline.
    cbn [copyJarLines] in H.
    destruct (split_ws line) as [|tok0 [|tok1 toks]].
    + unfold raise in H. injection H as _ <- _. reflexivity.
    + unfold raise in H. injection H as _ <- _. reflexivity.
    + set (toPath := path_join OMNI_JUGGLER_DIR tok0) in *.
      assert (Hmk : forall fsm u tm, mkdir_recursive (path_dirname toPath) fs = (inr u, fsm, tm) ->
                      forall q, is_under OMNI_EXTRACT_DIR q = false -> fsm !! q = fs !! q).
      { intros fsm u tm Hm. apply mkdir_recursive_ok in Hm as [_ Hk].
        intros q Hq. destruct (Hk q) as [E|(_ & Hne & Hin & _)]; [exact E|].
        exfalso. apply prefixes_under in Hin.
        assert (Hd : is_under OMNI_EXTRACT_DIR (path_dirname toPath) = true).
        { apply (dirname_under _ "chrome"). change (OMNI_EXTRACT_DIR ++ ["chrome"]) with
            (BUILD_DIRECTORY ++ ["omni"; "chrome"]).
          apply (is_under_weaken _ ["juggler"]). exact Hline. }
        destruct (is_under_comparable _ _ _ Hd Hin) as [Hc|Hc]; [congruence|].
        rewrite (path_exists_up _ _ _ Hex Hc) in Hne. discriminate. }
      unfold bind at 1 in H.
      destruct (mkdir_recursive (path_dirname toPath) fs) as [[[e|u] fsm] tm] eqn:Hm.
      { apply mkdir_recursive_err in Hm as ->. injection H as _ <- _. reflexivity. }
      pose proof (Hmk _ _ _ eq_refl) as Hfm. pose proof Hm as Hm'.
      apply mkdir_recursive_ok in Hm' as [_ Hkm].
      unfold bind at 1 in H.
      destruct (copyFile (path_join (juggler_src_dir dir br) (slice_1_m1 tok1)) toPath fsm)
        as [[[e|u2] fsc] tc] eqn:Hc.
      { apply copyFile_err in Hc as ->. injection H as _ <- _. apply Hfm. exact Hp. }
      apply copyFile_ok in Hc as (c & _ & _ & -> & _).
      destruct (copyJarLines dir br lines (<[toPath := c]> fsm)) as [[r' fs'] t'] eqn:Hr.
      injection H as _ <- _.
      assert (Hex2 : path_exists (<[toPath := c]> fsm) OMNI_EXTRACT_DIR = true).
      { apply (path_exists_grow fs); [|exact Hex]. intros k Hk.
        apply lookup_grow_insert. destruct (Hkm k) as [->|(E & _)]; [exact Hk|congruence]. }
      rewrite (IH _ _ _ _ Hwf Hex2 Hr p Hp).
      rewrite lookup_insert_ne; [apply Hfm; exact Hp|].
      apply (under_ne OMNI_EXTRACT_DIR); [apply juggler_under_extract; exact Hline|exact Hp].
Qed.

Import PatchSpec.








(** *** The copy loop, line by line *)

Lemma bind_assoc {A B C} (m : M A) (f : A -> M B) (g : B -> M C) fs :
  bind (bind m f) g fs = bind m (fun x => bind (f x) g) fs.
Proof.
  unfold bind. destruct (m fs) as [[[e|x] fs1] t1]; [reflexivity|].
  destruct (f x fs1) as [[[e|y] fs2] t2]; [reflexivity|].
  destruct (g y fs2) as [[r fs3] t3]. rewrite app_assoc. reflexivity.
Qed.

Lemma bind_ext {A B} (m : M A) (k1 k2 : A -> M B) fs :
  (forall x fs', k1 x fs' = k2 x fs') -> bind m k1 fs = bind m k2 fs.
Proof. intros H. unfold bind. destruct (m fs) as [[[e|x] fs1] t1]; [reflexivity|]. rewrite H. reflexivity. Qed.

(** The lines are applied in order. *)
Lemma copyJarLines_app dir br (lines1 lines2 : list string) fs :
  copyJarLines dir br (lines1 ++ lines2) fs
  = (_ <- copyJarLines dir br lines1;; copyJarLines dir br lines2) fs.
Proof.
  revert fs. induction lines1 as [|line lines1 IH]; intros fs.
  - simpl. unfold bind, ret. destruct (copyJarLines dir br lines2 fs) as [[r fs'] t]. reflexivity.
  - cbn [app copyJarLines]. destruct (split_ws line) as [|tok0 [|tok1 toks]]; try reflexivity.
    rewrite bind_assoc. apply bind_ext. intros u fs1.
    rewrite bind_assoc. apply bind_ext. intros u' fs2. apply IH.
Qed.

(** Claim C4 (corrected).  The kept manifest lines are, in order, the
    lines of the text, each trimmed, that start with [content/] and end
    with [)]; whitespace is that of [trim] and [\s], Unicode included
    (a byte order mark and a no-break space are removed, and a no-break
    space separates tokens).  The kept lines are applied in order; a
    kept line split on whitespace into [tok0 :: tok1 :: _] creates the
    parent directory of [tok0] below the Juggler directory and copies
    there the source [tok1.slice(1, -1)] of the Juggler sources (the
    line [content/foo/bar.js (./foo/bar.js)] gives [content/foo/bar.js]
    and [./foo/bar.js]); a kept line with a single token throws a
    [TypeError]. *)
Theorem manifest_parsing (dir : path) (br : string) (text : string) :
  jarLines text
  = List.filter (fun line => starts_with "content/" line && ends_with ")" line)
      (List.map trim (split_on newline text)) /\
  (forall lines1 lines2 fs,
     copyJarLines dir br (lines1 ++ lines2) fs
     = (_ <- copyJarLines dir br lines1;; copyJarLines dir br lines2) fs) /\
  jarLines "content/foo/bar.js (./foo/bar.js)" = ["content/foo/bar.js (./foo/bar.js)"] /\
  split_ws "content/foo/bar.js (./foo/bar.js)" = ["content/foo/bar.js"; "(./foo/bar.js)"] /\
  slice_1_m1 "(./foo/bar.js)" = "./foo/bar.js" /\
  jarLines unicode_manifest = [unicode_line] /\
  split_ws unicode_line = ["content/a.js"; "(a.js)"] /\
  (forall line rest tok0 tok1 toks,
     split_ws line = tok0 :: tok1 :: toks ->
     copyJarLines dir br (line :: rest)
     = (_ <- mkdir_recursive (path_dirname (path_join OMNI_JUGGLER_DIR tok0));;
        _ <- copyFile (path_join (juggler_src_dir dir br) (slice_1_m1 tok1))
                      (path_join OMNI_JUGGLER_DIR tok0);;
        copyJarLines dir br rest)) /\
  (forall line rest tok0 fs,
     split_ws line = [tok0] ->
     copyJarLines dir br (line :: rest) fs
     = (inl (Thrown "TypeError: Cannot read properties of undefined (reading 'slice')"), fs, [])).
Proof.
  split; [reflexivity|]. split; [apply copyJarLines_app|].
  split; [vm_compute; reflexivity|]. split; [vm_compute; reflexivity|].
  split; [vm_compute; reflexivity|]. split; [vm_compute; reflexivity|].
  split; [vm_compute; reflexivity|]. split.
  - intros line rest tok0 tok1 toks Hs. cbn [copyJarLines]. rewrite Hs. reflexivity.
  - intros line rest tok0 fs Hs. cbn [copyJarLines]. rewrite Hs. reflexivity.
Qed.

(** Counterexample to claim C4.  The line [content/foo.js)] is kept but
    has no second token: the run copies the lines before it and then
    stops with a [TypeError] instead of applying the kept lines. *)
Lemma manifest_single_token_counterexample :
  jarLines single_token_manifest = ["content/main.js (../main.js)"; "content/foo.js)"] /\
  split_ws "content/foo.js)" = ["content/foo.js)"] /\
  fst (fst (patch_once single_token_manifest))
  = inl (Thrown "TypeError: Cannot read properties of undefined (reading 'slice')") /\
  snd (patch_once single_token_manifest)
  = [CopyFile omni_path OMNI_BACKUP_PATH;
     ExtractAll OMNI_BACKUP_PATH OMNI_EXTRACT_DIR;
     CopyFile ["src"; "browser_patches"; "firefox"; "main.js"]
       (OMNI_JUGGLER_DIR ++ ["content"; "main.js"])].
Proof. repeat split; vm_compute; reflexivity. Qed.


End PatcherFacts.

Module ReleaseFacts.
Import Js JsFacts Platform ReleaseSpec.

Lemma split_on_nonempty c s : split_on c s <> [].
Proof.
  induction s as [|d r IH]; simpl; [discriminate|].
  destruct (split_on c r); [contradiction|]. destruct (Ascii.eqb c d); discriminate.
Qed.

Lemma split_on_free c a : free_of c a = true -> split_on c a = [a].
Proof.
  induction a as [|d a IH]; simpl; [reflexivity|].
  intros H. apply andb_prop in H as [Hd Ha]. rewrite (IH Ha).
  apply negb_true_iff in Hd. rewrite Ascii.eqb_sym, Hd. reflexivity.
Qed.

Lemma split_on_sep c a b :
  free_of c a = true -> split_on c (a ++ String c b) = a :: split_on c b.
Proof.
  induction a as [|d a IH]; intros H.
  - simpl. destruct (split_on c b) as [|w ws] eqn:E; [now apply split_on_nonempty in E|].
    now rewrite Ascii.eqb_refl.
  - rewrite append_cons. simpl in H. apply andb_prop in H as [Hd Ha].
    simpl. rewrite (IH Ha). apply negb_true_iff in Hd. rewrite Ascii.eqb_sym, Hd. reflexivity.
Qed.







End ReleaseFacts.

Module HostFacts.
Import Js Platform.

Lemma getHostPlatform_other (h : host) :
  os_platform h <> "darwin" -> snd (getHostPlatform h) = [].
Proof.
  intros Hd. unfold getHostPlatform.
  destruct (String.eqb_spec (os_platform h) "darwin"); [contradiction|].
  destruct (String.eqb (os_platform h) "linux").
  - destruct (parse_int (getUbuntuVersionSync h)) as [v|]; [destruct (v <=? 19)%Z|]; reflexivity.
  - destruct (String.eqb (os_platform h) "win32"); reflexivity.
Qed.

(** X2: [getHostPlatform] starts no process off darwin; on darwin it
    always runs [sw_vers], and runs the [sysctl] arm64 probe exactly
    when the major version parses to a number of at least 11. *)
Theorem host_processes (h : host) :
  (os_platform h <> "darwin" -> snd (getHostPlatform h) = []) /\
  (os_platform h = "darwin" -> In SwVersProductVersion (snd (getHostPlatform h))) /\
  (In SysctlArm64 (snd (getHostPlatform h)) <->
     os_platform h = "darwin" /\
     exists major, product_version_parts h !! 0 = Some (Some major) /\ (11 <= major)%Z).
Proof.
  split; [apply getHostPlatform_other|]. split.
  - intros Hd. unfold getHostPlatform. rewrite Hd. cbn [String.eqb Ascii.eqb Bool.eqb andb].
    destruct (num_ge (product_version_parts h !! 0) 11); simpl; auto.
  - split.
    + destruct (String.eqb_spec (os_platform h) "darwin") as [Hd|Hd].
      2: { rewrite getHostPlatform_other by exact Hd. intros []. }
      unfold getHostPlatform. rewrite Hd. cbn [String.eqb Ascii.eqb Bool.eqb andb].
      destruct (num_ge (product_version_parts h !! 0) 11) eqn:Hg; simpl.
      * intros _. split; [reflexivity|]. unfold num_ge in Hg.
        destruct (product_version_parts h !! 0) as [[z|]|]; try discriminate.
        exists z. split; [reflexivity|]. now apply Z.leb_le.
      * intros [H|[]]. discriminate.
    + intros [Hd [major [Hm Hle]]]. unfold getHostPlatform. rewrite Hd.
      cbn [String.eqb Ascii.eqb Bool.eqb andb]. rewrite Hm. unfold num_ge.
      replace (11 <=? major)%Z with true by (symmetry; now apply Z.leb_le).
      simpl. auto.
Qed.

Lemma mac11_tag (h : host) (major : Z) :
  os_platform h = "darwin" -> product_version_parts h !! 0 = Some (Some major) -> (11 <= major)%Z ->
  fst (getHostPlatform h) = "mac11" \/ fst (getHostPlatform h) = "mac11-arm64".
Proof.
  intros Hd Hm Hle. unfold getHostPlatform. rewrite Hd.
  cbn [String.eqb Ascii.eqb Bool.eqb andb]. rewrite Hm.
  unfold num_ge, num_eq, num_gt, LAST_STABLE_MAC_MAJOR_VERSION.
  replace (11 <=? major)%Z with true by (symmetry; now apply Z.leb_le).
  replace (major =? 10)%Z with false by (symmetry; apply Z.eqb_neq; lia).
  destruct (Z.eq_dec major 11) as [->|Hne].
  - simpl. destruct (arm64_probe h); auto.
  - replace (11 <? major)%Z with true by (symmetry; apply Z.ltb_lt; lia).
    simpl. destruct (arm64_probe h); auto.
Qed.

Lemma mac10_tag (h : host) (minor : Z) :
  os_platform h = "darwin" -> product_version_parts h !! 0 = Some (Some 10%Z) ->
  product_version_parts h !! 1 = Some (Some minor) ->
  fst (getHostPlatform h) = "mac10." ++ num_to_string (Some minor).
Proof.
  intros Hd Hm Hn. unfold getHostPlatform. rewrite Hd.
  cbn [String.eqb Ascii.eqb Bool.eqb andb]. rewrite Hm, Hn. simpl.
  now rewrite JsFacts.append_empty_r.
Qed.

(** X3: the tag [getHostPlatform] computes on linux, on win32, on darwin
    11 or later and on darwin 10.14 or 10.15 is an own key of both
    tables: it has a download URL template for both browsers and an
    executable path. *)
Theorem host_tag_supported (h : host) (v : BuildCache.variant) :
  os_platform h = "linux" \/ os_platform h = "win32" \/
  (os_platform h = "darwin" /\
   ((exists major, product_version_parts h !! 0 = Some (Some major) /\ (11 <= major)%Z) \/
    (product_version_parts h !! 0 = Some (Some 10%Z) /\
     (product_version_parts h !! 1 = Some (Some 14%Z) \/
      product_version_parts h !! 1 = Some (Some 15%Z))))) ->
  (exists tpl, BuildCache.DOWNLOAD_URLS v (fst (getHostPlatform h)) = Some (Own tpl)) /\
  (exists segs, Report.EXECUTABLE_PATHS (fst (getHostPlatform h)) = Some (Own segs)).
Proof.
  intros [Hl|[Hw|[Hd [[major [Hm Hle]]|[Hm [Hn|Hn]]]]]].
  - unfold getHostPlatform. rewrite Hl. simpl.
    destruct (parse_int (getUbuntuVersionSync h)) as [n|]; [destruct (n <=? 19)%Z|];
      destruct v; split; eexists; reflexivity.
  - unfold getHostPlatform. rewrite Hw. simpl. destruct v; split; eexists; reflexivity.
  - destruct (mac11_tag h major Hd Hm Hle) as [-> | ->]; destruct v; split; eexists; reflexivity.
  - rewrite (mac10_tag h 14 Hd Hm Hn). destruct v; split; eexists; reflexivity.
  - rewrite (mac10_tag h 15 Hd Hm Hn). destruct v; split; eexists; reflexivity.
Qed.

End HostFacts.

Module ReportFacts.
Import BuildCache Report.

(** X4: [DOWNLOAD_URLS] of either browser and [EXECUTABLE_PATHS] have
    the same own keys (and, as plain objects, inherit the same members):
    a platform tag has a download URL exactly when it has an executable
    path. *)
Theorem urls_and_executables_agree (v : variant) (p : string) :
  DOWNLOAD_URLS v p = None <-> EXECUTABLE_PATHS p = None.
Proof.
  unfold DOWNLOAD_URLS, EXECUTABLE_PATHS, Js.get_prop, url_table, executable_table.
  cbn [assoc assoc_segments].
  destruct (String.eqb p "ubuntu18.04"); [split; discriminate|].
  destruct (String.eqb p "ubuntu20.04"); [split; discriminate|].
  destruct (String.eqb p "mac10.14"); [split; discriminate|].
  destruct (String.eqb p "mac10.15"); [split; discriminate|].
  destruct (String.eqb p "mac11"); [split; discriminate|].
  destruct (String.eqb p "mac11-arm64"); [split; discriminate|].
  destruct (String.eqb p "win64"); [split; discriminate|].
  destruct (existsb (String.eqb p) Js.object_prototype_names); split; first [discriminate | reflexivity].
Qed.

End ReportFacts.

Module DownloadMore.
Import Js Download.

Lemma httpRequest_result_chain (fuel : nat) (serve : server) (u : string)
    (urls : list string) (res : response) :
  httpRequest fuel serve u = Some (urls, res) ->
  exists hops last, urls = u :: hops /\ redirects_to serve u hops last /\
                    res = serve last /\ is_redirect res = false.
Proof.
  revert u urls res. induction fuel as [|f IH]; intros u urls res H; simpl in H; [discriminate|].
  destruct (is_redirect (serve u)) eqn:Hr.
  - destruct (location (serve u)) as [l|] eqn:Hl; [|discriminate].
    destruct (httpRequest f serve l) as [[urls' r']|] eqn:E; [|discriminate].
    simpl in H. injection H as <- <-.
    destruct (IH l urls' r' E) as (hops & last & -> & Hc & -> & Hn).
    exists (l :: hops), last. split; [reflexivity|]. split; [|auto].
    simpl. auto.
  - injection H as <- <-. exists [], u. simpl. auto.
Qed.

(** X5: the URLs [httpRequest] requests form a redirect chain: each one
    after the first is the [Location] of a redirect answered to the one
    before it, and the response handed to the callback is the answer to
    the last URL, which is not a redirect. *)
Theorem httpRequest_chain_sound (fuel : nat) (serve : server) (u : string)
    (urls : list string) (res : response) :
  httpRequest fuel serve u = Some (urls, res) ->
  exists hops last, urls = u :: hops /\ redirects_to serve u hops last /\
                    res = serve last /\ is_redirect res = false.
Proof. exact (httpRequest_result_chain fuel serve u urls res). Qed.

(** X6: whatever the answer, [downloadFile] changes no file other than
    the destination; it writes the destination, with the body of the last
    response, exactly when that response has status 200. *)
Theorem download_only_writes_destination (fuel : nat) (serve : server) (u dest : string)
    (fs : gmap string string) (r : run) :
  downloadFile fuel serve u dest fs = Some r ->
  (forall p, p <> dest -> files r !! p = fs !! p) /\
  exists hops last, requested r = u :: hops /\ redirects_to serve u hops last /\
    (result r = Fulfilled <-> statusCode (serve last) = 200%Z) /\
    (result r = Fulfilled -> files r !! dest = Some (body (serve last))) /\
    (result r <> Fulfilled -> files r = fs).
Proof.
  unfold downloadFile. destruct (httpRequest fuel serve u) as [[urls res]|] eqn:E; [|discriminate].
  destruct (httpRequest_result_chain _ _ _ _ _ E) as (hops & last & -> & Hc & -> & _).
  destruct (statusCode (serve last) =? 200)%Z eqn:Hs; simpl; intros H; injection H as <-.
  - split; [intros p Hp; apply lookup_insert_ne; congruence|].
    exists hops, last. simpl. apply Z.eqb_eq in Hs.
    split; [reflexivity|]. split; [exact Hc|]. split; [split; auto|].
    split; [intros _; apply lookup_insert_eq|]. intros Hf. contradiction.
  - split; [reflexivity|]. exists hops, last. simpl. apply Z.eqb_neq in Hs.
    split; [reflexivity|]. split; [exact Hc|]. split; [split; [discriminate|contradiction]|].
    split; [discriminate|reflexivity].
Qed.

(** X7: a 3xx response without a usable [Location] header (missing or
    empty) is not followed: it is handed to [downloadFile], which drains
    it and rejects with the non-200 error after that single request. *)
Theorem redirect_without_location_rejected (fuel : nat) (serve : server) (u dest : string)
    (fs : gmap string string) :
  (300 <= statusCode (serve u) < 400)%Z ->
  (location (serve u) = None \/ location (serve u) = Some EmptyString) ->
  downloadFile (S fuel) serve u dest fs =
    Some {| requested := [u]; result := Rejected (failure_message (statusCode (serve u)) u);
            files := fs; drained := true |}.
Proof.
  intros Hs Hl. unfold downloadFile. simpl.
  assert (Hr : is_redirect (serve u) = false).
  { unfold is_redirect. destruct Hl as [-> | ->]; apply andb_false_r. }
  rewrite Hr. simpl.
  replace (statusCode (serve u) =? 200)%Z with false by (symmetry; apply Z.eqb_neq; lia).
  reflexivity.
Qed.

End DownloadMore.

Module CacheMore.
Import Js JsFacts BuildCache BuildCacheFacts ReleaseSpec ReleaseFacts StageSpec.
Local Open Scope list_scope.

Lemma no_work_in (t : list event) : existsb is_work t = false -> forall e, In e t -> is_work e = false.
Proof.
  intros H e He. destruct (is_work e) eqn:E; [|reflexivity].
  assert (existsb is_work t = true) by (apply existsb_exists; eauto). congruence.
Qed.

Lemma resolveBuildNumber_trace E v bn d :
  snd (resolveBuildNumber E v bn d) = if absent bn then [ReadBuildNumberFile v] else [].
Proof.
  unfold resolveBuildNumber. destruct (absent bn); [|reflexivity].
  unfold bind, emit. destruct (build_number_file E v); reflexivity.
Qed.

Lemma resolveBuildPlatform_trace E bp d :
  snd (resolveBuildPlatform E bp d) = if absent bp then [ProbeHostPlatform] else [].
Proof. unfold resolveBuildPlatform. destruct (absent bp); reflexivity. Qed.

Lemma resolveBuildPlatform_ok E bp d : exists p, fst (fst (resolveBuildPlatform E bp d)) = inr p.
Proof. unfold resolveBuildPlatform. destruct (absent bp); eexists; reflexivity. Qed.

Lemma bind_fail {A B} (m : M A) (k : A -> M B) d e d' t :
  m d = (inl e, d', t) -> bind m k d = (inl e, d', t).
Proof. unfold bind. intros ->. reflexivity. Qed.

(** The outcomes of [stageBuild]. *)
Lemma stage_cases E v n p d r d' t :
  stageBuild E v n p d = (r, d', t) ->
  In RemoveStage t /\ (forall e, In e t -> is_work e = true) /\
  (forall url dest, In (DownloadTo url dest) t ->
     exists x, DOWNLOAD_URLS v p = Some x /\ url = util_format x n /\ dest = buildZipPath) /\
  ((info d' = InfoMissing /\ omni_backup_exists d' = false /\
    (build_zip_exists d' = true -> exists url, In (DownloadTo url buildZipPath) t) /\
    (build_extracted d' = true -> In (Extract buildZipPath BUILD_DIRECTORY false true) t) /\
    exists msg, r = inl msg) \/
   (exists x, DOWNLOAD_URLS v p = Some x /\ r = inr (fresh_info v n p) /\
      d' = staged (fresh_info v n p))).
Proof.
  destruct (DOWNLOAD_URLS v p) as [x|] eqn:Hu.
  - destruct (download_error E (util_format x n)) as [e|] eqn:Hd.
    + rewrite (stage_download_error E v n p d x e Hu Hd). intros [= <- <- <-].
      split; [left; reflexivity|]. split; [intros y Hy; simpl in Hy; intuition subst; reflexivity|].
      split.
      * intros url dest Hy. simpl in Hy. destruct Hy as [?|[?|[[= <- <-]|[]]]]; try discriminate. eauto.
      * left. split; [reflexivity|]. split; [reflexivity|].
        split; [intros _; eexists; simpl; eauto|]. split; [discriminate|eauto].
    + destruct (extract_error E (util_format x n)) as [e|] eqn:Hx.
      * rewrite (stage_extract_error E v n p d x e Hu Hd Hx). intros [= <- <- <-].
        split; [left; reflexivity|]. split; [intros y Hy; simpl in Hy; intuition subst; reflexivity|].
        split.
        -- intros url dest Hy. simpl in Hy.
           destruct Hy as [?|[?|[[= <- <-]|[?|[]]]]]; try discriminate. eauto.
        -- left. split; [reflexivity|]. split; [reflexivity|].
           split; [intros _; eexists; simpl; eauto|]. split; [intros _; simpl; eauto|eauto].
      * rewrite (stage_ok E v n p d x Hu Hd Hx). intros [= <- <- <-].
        split; [left; reflexivity|]. split; [intros y Hy; simpl in Hy; intuition subst; reflexivity|].
        split; [|right; eauto].
        intros url dest Hy. simpl in Hy.
        destruct Hy as [?|[?|[[= <- <-]|[?|[?|[]]]]]]; try discriminate. eauto.
  - rewrite (stage_no_url E v n p d Hu). intros [= <- <- <-].
    split; [left; reflexivity|]. split; [intros y Hy; simpl in Hy; intuition subst; reflexivity|].
    split.
    + intros url dest Hy. simpl in Hy. destruct Hy as [?|[?|[]]]; discriminate.
    + left. split; [reflexivity|]. split; [reflexivity|].
      split; [discriminate|]. split; [discriminate|eauto].
Qed.

(** The outcomes of [ensureFirefoxBuild]: it stops before touching the
    stage, or runs [stageBuild] after resolving the request. *)
Lemma ensure_cases E v bn bp d r d' t :
  ensureFirefoxBuild E v bn bp d = (r, d', t) ->
  (d' = d /\ (forall e, In e t -> is_work e = false) /\
   (forall b, r = inr b -> currentBuildInfo (info d) = Some b /\
      exists n p, resolveBuildNumber E v bn d = (inr n, d, snd (resolveBuildNumber E v bn d)) /\
                  resolveBuildPlatform E bp d = (inr p, d, snd (resolveBuildPlatform E bp d)) /\
                  matches b v n p = true)) \/
  (exists n p tb tp ts cur, resolveBuildNumber E v bn d = (inr n, d, tb) /\
     resolveBuildPlatform E bp d = (inr p, d, tp) /\
     currentBuildInfo (info d) = Some cur /\ matches cur v n p = false /\
     stageBuild E v n p d = (r, d', ts) /\ t = tb ++ tp ++ ts).
Proof.
  intros H.
  destruct (resolveBuildNumber E v bn d) as [[[e|n] d1] tb] eqn:H1;
    destruct (resolveBuildNumber_disk E v bn d _ _ _ H1) as [-> [Wb _]].
  - unfold ensureFirefoxBuild in H. rewrite (bind_fail _ _ _ _ _ _ H1) in H.
    injection H as <- <- <-. left.
    split; [reflexivity|]. split; [exact (no_work_in _ Wb)|]. discriminate.
  - destruct (resolveBuildPlatform E bp d) as [[[e|p] d2] tp] eqn:H2;
      destruct (resolveBuildPlatform_disk E bp d _ _ _ H2) as [-> [Wp _]].
    + unfold ensureFirefoxBuild in H. rewrite (bind_ok _ _ _ _ _ _ H1) in H. cbv beta in H.
      rewrite (bind_fail _ _ _ _ _ _ H2) in H. cbn in H.
      injection H as <- <- <-. left.
      split; [reflexivity|]. split; [|discriminate].
      intros x Hx. apply in_app_or in Hx as [Hx|Hx];
        [exact (no_work_in _ Wb x Hx)|exact (no_work_in _ Wp x Hx)].
    + assert (Hnw : forall x, In x (tb ++ tp) -> is_work x = false).
      { intros x Hx. apply in_app_or in Hx as [Hx|Hx];
          [exact (no_work_in _ Wb x Hx)|exact (no_work_in _ Wp x Hx)]. }
      destruct (currentBuildInfo (info d)) as [cur|] eqn:Hc.
      * rewrite (ensure_unfold E v bn bp d n p tb tp cur H1 H2 Hc) in H.
        destruct (matches cur v n p) eqn:Hm.
        -- injection H as <- <- <-. left. split; [reflexivity|]. split; [exact Hnw|].
           intros b [= <-]. split; [reflexivity|]. exists n, p. auto.
        -- destruct (stageBuild E v n p d) as [[r0 d0] ts] eqn:Hs. cbn in H.
           injection H as <- <- <-. right. exists n, p, tb, tp, ts, cur. repeat split; first [assumption | reflexivity].
      * unfold ensureFirefoxBuild in H. rewrite (bind_ok _ _ _ _ _ _ H1) in H. cbv beta in H.
        rewrite (bind_ok _ _ _ _ _ _ H2) in H. cbv beta in H.
        unfold bind, get_disk, throw in H. cbn in H. rewrite Hc in H. cbn in H.
        injection H as <- <- <-. left. split; [reflexivity|].
        split; [rewrite app_nil_r; exact Hnw|discriminate].
Qed.

Lemma resolve_first_line E v bn d text n :
  absent bn = true -> build_number_file E v = Some text ->
  head (split_on "010" text) = Some n ->
  resolveBuildNumber E v bn d = (inr n, d, [ReadBuildNumberFile v]).
Proof.
  intros Ha Hf Hh. unfold resolveBuildNumber. rewrite Ha, Hf. unfold bind, emit, ret. cbn.
  rewrite Hh. reflexivity.
Qed.

(** X8: with the build number argument missing or empty, the build
    number is the text of [BUILD_NUMBER] up to its first newline (the
    whole text when it has none), read without touching the stage; a
    non-empty argument is used as given and the file is not read. *)
Theorem build_number_first_line (E : env) (v : variant) (bn : option string) (d : disk) :
  (forall s, bn = Some s -> s <> EmptyString ->
     resolveBuildNumber E v bn d = (inr s, d, [])) /\
  (absent bn = true -> forall n rest, free_of "010" n = true ->
     build_number_file E v = Some (n ++ String "010" rest)%string ->
     resolveBuildNumber E v bn d = (inr n, d, [ReadBuildNumberFile v])) /\
  (absent bn = true -> forall text, free_of "010" text = true ->
     build_number_file E v = Some text ->
     resolveBuildNumber E v bn d = (inr text, d, [ReadBuildNumberFile v])).
Proof.
  split; [|split].
  - intros s -> Hs. unfold resolveBuildNumber. cbn [absent].
    destruct (String.eqb_spec s EmptyString); [contradiction|reflexivity].
  - intros Ha n rest Hn Hf. apply (resolve_first_line E v bn d _ n Ha Hf).
    rewrite split_on_sep by exact Hn. reflexivity.
  - intros Ha text Ht Hf. apply (resolve_first_line E v bn d _ text Ha Hf).
    rewrite split_on_free by exact Ht. reflexivity.
Qed.

Lemma ensure_trace E v bn bp d :
  exists rest, snd (ensureFirefoxBuild E v bn bp d) = snd (resolveBuildNumber E v bn d) ++ rest /\
    forall e, In e rest -> (e = ProbeHostPlatform /\ absent bp = true) \/ is_work e = true.
Proof.
  unfold ensureFirefoxBuild.
  destruct (resolveBuildNumber E v bn d) as [[[e|n] d1] t1] eqn:H1.
  - rewrite (bind_fail _ _ _ _ _ _ H1). exists []. rewrite app_nil_r. split; [reflexivity|intros ? []].
  - rewrite (bind_ok _ _ _ _ _ _ H1). cbn [snd]. eexists. split; [reflexivity|].
    pose proof (resolveBuildPlatform_trace E bp d1) as Htp.
    destruct (resolveBuildPlatform E bp d1) as [[[e|p] d2] t2] eqn:H2; cbn in Htp; subst t2.
    + rewrite (bind_fail _ _ _ _ _ _ H2). cbn [snd].
      intros x Hx. left. destruct (absent bp); [destruct Hx as [<-|[]]; auto|destruct Hx].
    + rewrite (bind_ok _ _ _ _ _ _ H2). cbn [snd]. intros x Hx. apply in_app_or in Hx as [Hx|Hx].
      { left. destruct (absent bp); [destruct Hx as [<-|[]]; auto|destruct Hx]. }
      revert Hx. unfold bind at 1, get_disk. cbn.
      destruct (currentBuildInfo (info d2)) as [cur|].
      * destruct (matches cur v n p).
        -- cbn. intros [].
        -- destruct (stageBuild E v n p d2) as [[r3 d3] t3] eqn:Hs. cbn. rewrite ?app_nil_l.
           intros Hx. right. destruct (stage_cases E v n p d2 r3 d3 t3 Hs) as (_ & Hw & _).
           exact (Hw x Hx).
      * cbn. intros [].
Qed.

(** X9: [ensureFirefoxBuild] reads [BUILD_NUMBER] exactly when the build
    number argument is missing or empty, and probes the host platform
    only when the platform argument is missing or empty. *)
Theorem ensure_reads_only_missing_args (E : env) (v : variant) (bn bp : option string) (d : disk) :
  (forall v', In (ReadBuildNumberFile v') (snd (ensureFirefoxBuild E v bn bp d)) <->
              absent bn = true /\ v' = v) /\
  (In ProbeHostPlatform (snd (ensureFirefoxBuild E v bn bp d)) -> absent bp = true).
Proof.
  destruct (ensure_trace E v bn bp d) as (rest & -> & Hr).
  rewrite resolveBuildNumber_trace. split.
  - intros v'. rewrite in_app_iff. split.
    + intros [Hx|Hx].
      * destruct (absent bn); [destruct Hx as [[= ->]|[]]; auto|destruct Hx].
      * destruct (Hr _ Hx) as [[Hx' _]|Hx']; discriminate.
    + intros [-> ->]. left. left. reflexivity.
  - rewrite in_app_iff. intros [Hx|Hx].
    + destruct (absent bn); [destruct Hx as [Hx|[]]; discriminate|destruct Hx].
    + destruct (Hr _ Hx) as [[_ Ha]|Hx']; [exact Ha|discriminate].
Qed.

(** X10: when the build number must be read from [BUILD_NUMBER] and that
    read fails, or when [build-info.json] holds [null], the call fails
    before it removes, downloads, extracts or writes anything, and leaves
    the stage as it was. *)
Theorem ensure_fails_before_work (E : env) (v : variant) (bn bp : option string) (d : disk) :
  (absent bn = true /\ build_number_file E v = None) \/ info d = InfoJson JNull ->
  exists msg t, ensureFirefoxBuild E v bn bp d = (inl msg, d, t) /\ existsb is_work t = false.
Proof.
  intros Hpre. destruct (ensureFirefoxBuild E v bn bp d) as [[r d'] t] eqn:H.
  assert (Hbn : forall n tb, resolveBuildNumber E v bn d = (inr n, d, tb) -> info d = InfoJson JNull).
  { intros n tb H1. destruct Hpre as [[Ha Hf]|Hj]; [|exact Hj].
    unfold resolveBuildNumber in H1. rewrite Ha, Hf in H1. discriminate. }
  destruct (ensure_cases E v bn bp d r d' t H)
    as [(-> & Hnw & Hr)|(n & p & tb & tp & ts & cur & H1 & _ & Hc & _)].
  - destruct r as [msg|b].
    + exists msg, t. split; [reflexivity|].
      destruct (existsb is_work t) eqn:Ew; [|reflexivity].
      apply existsb_exists in Ew as [x [Hx Hw]]. rewrite (Hnw x Hx) in Hw. discriminate.
    + exfalso. destruct (Hr b eq_refl) as (Hc & n & p & H1 & _).
      rewrite (Hbn _ _ H1) in Hc. discriminate.
  - exfalso. rewrite (Hbn _ _ H1) in Hc. discriminate.
Qed.

(** X11: after any call, the stage is either as it was, with nothing
    removed, downloaded, extracted or written; or it has been wiped.  In
    that case either the call failed, and the stage holds no descriptor
    and no [omni.ja] backup ([firefox.zip] remains only if a download was
    started, extracted files only if an extraction was started); or the
    call returned a descriptor, and the stage holds exactly that
    descriptor, the downloaded archive and the extracted build, and no
    [omni.ja] backup. *)
Theorem ensure_stage_outcomes (E : env) (v : variant) (bn bp : option string) (d : disk)
    (r : string + build_info) (d' : disk) (t : list event) :
  ensureFirefoxBuild E v bn bp d = (r, d', t) ->
  (d' = d /\ existsb is_work t = false) \/
  (In RemoveStage t /\
   ((info d' = InfoMissing /\ omni_backup_exists d' = false /\
     (build_zip_exists d' = true -> exists url, In (DownloadTo url buildZipPath) t) /\
     (build_extracted d' = true -> In (Extract buildZipPath BUILD_DIRECTORY false true) t) /\
     exists msg, r = inl msg) \/
    (exists b, r = inr b /\ d' = staged b))).
Proof.
  intros H.
  destruct (ensure_cases E v bn bp d r d' t H)
    as [(-> & Hnw & _)|(n & p & tb & tp & ts & cur & _ & _ & _ & _ & Hs & ->)].
  - left. split; [reflexivity|].
    destruct (existsb is_work t) eqn:Ew; [|reflexivity].
    apply existsb_exists in Ew as [x [Hx Hw]]. rewrite (Hnw x Hx) in Hw. discriminate.
  - right. destruct (stage_cases E v n p d r d' ts Hs) as (Hrm & _ & _ & Hout).
    split; [rewrite !in_app_iff; auto|].
    destruct Hout as [(Hi & Hb & Hz & Hx & Hm)|(x & _ & -> & ->)]; [left|right; eauto].
    split; [exact Hi|]. split; [exact Hb|]. split; [|split; [|exact Hm]].
    + intros Hz'. destruct (Hz Hz') as [url Hurl]. exists url. rewrite !in_app_iff; auto.
    + intros Hx'. rewrite !in_app_iff; auto.
Qed.

Lemma download_url_keys (v : variant) (p : string) :
  DOWNLOAD_URLS v p = None <-> Report.EXECUTABLE_PATHS p = None.
Proof.
  unfold DOWNLOAD_URLS, Report.EXECUTABLE_PATHS, get_prop, url_table, Report.executable_table.
  cbn [assoc Report.assoc_segments].
  destruct (String.eqb p "ubuntu18.04"); [split; discriminate|].
  destruct (String.eqb p "ubuntu20.04"); [split; discriminate|].
  destruct (String.eqb p "mac10.14"); [split; discriminate|].
  destruct (String.eqb p "mac10.15"); [split; discriminate|].
  destruct (String.eqb p "mac11"); [split; discriminate|].
  destruct (String.eqb p "mac11-arm64"); [split; discriminate|].
  destruct (String.eqb p "win64"); [split; discriminate|].
  destruct (existsb (String.eqb p) Js.object_prototype_names); split; first [discriminate | reflexivity].
Qed.

Lemma download_url_executable v p tpl :
  DOWNLOAD_URLS v p = Some (Own tpl) -> exists segs, Report.EXECUTABLE_PATHS p = Some (Own segs).
Proof.
  unfold DOWNLOAD_URLS, Report.EXECUTABLE_PATHS, get_prop, url_table, Report.executable_table.
  cbn [assoc Report.assoc_segments].
  destruct (String.eqb p "ubuntu18.04"); [eauto|].
  destruct (String.eqb p "ubuntu20.04"); [eauto|].
  destruct (String.eqb p "mac10.14"); [eauto|].
  destruct (String.eqb p "mac10.15"); [eauto|].
  destruct (String.eqb p "mac11"); [eauto|].
  destruct (String.eqb p "mac11-arm64"); [eauto|].
  destruct (String.eqb p "win64"); [eauto|].
  destruct (existsb (String.eqb p) Js.object_prototype_names); discriminate.
Qed.

(** Off the inherited names, a defined [DOWNLOAD_URLS] value is an own
    template. *)
Lemma download_urls_own v p x :
  ~ In p Report.object_prototype_names -> DOWNLOAD_URLS v p = Some x -> exists tpl, x = Own tpl.
Proof.
  intros Hn. unfold DOWNLOAD_URLS, get_prop.
  destruct (assoc p (url_table v)) as [tpl|]; [intros [= <-]; eauto|].
  destruct (existsb (String.eqb p) Js.object_prototype_names) eqn:E; [|discriminate].
  exfalso. apply Hn. apply existsb_exists in E as [q [Hq Heq]]. apply String.eqb_eq in Heq.
  now subst q.
Qed.

Lemma descriptor_ok_fresh v n p tpl :
  DOWNLOAD_URLS v p = Some (Own tpl) -> descriptor_ok (InfoJson (JValue (fresh_info v n p))) = true.
Proof.
  intros H. unfold descriptor_ok, fresh_info. cbn [info_browserName buildPlatform].
  destruct v; cbn [existsb]; rewrite H; reflexivity.
Qed.

Lemma descriptor_ok_platform b :
  descriptor_ok (InfoJson (JValue b)) = true ->
  exists p segs, buildPlatform b = Some p /\ Report.EXECUTABLE_PATHS p = Some (Own segs).
Proof.
  unfold descriptor_ok. destruct (info_browserName b) as [nm|]; [|discriminate].
  destruct (buildPlatform b) as [p|]; [|discriminate].
  intros H. apply existsb_exists in H as [v' [_ H]]. apply andb_prop in H as [_ H].
  destruct (DOWNLOAD_URLS v' p) as [[tpl|]|] eqn:E; try discriminate.
  destruct (download_url_executable v' p tpl E) as [segs Hs]. eauto.
Qed.

(** X12: the descriptor file only ever names a browser and a platform
    with a download URL template of its own: a call that starts from such
    a stage leaves such a stage, and every descriptor it returns names a
    platform with an executable path, so the report at the end of the
    repackaging can be printed.  The requested platform is one that
    [DOWNLOAD_URLS[browserName]] does not inherit from
    [Object.prototype]. *)
Theorem ensure_keeps_descriptor_supported (E : env) (v : variant) (bn bp : option string)
    (d : disk) (p : string) (tp : list event) (r : string + build_info) (d' : disk) (t : list event) :
  StageSpec.descriptor_ok (info d) = true ->
  resolveBuildPlatform E bp d = (inr p, d, tp) ->
  ~ In p Report.object_prototype_names ->
  ensureFirefoxBuild E v bn bp d = (r, d', t) ->
  StageSpec.descriptor_ok (info d') = true /\
  (forall b, r = inr b ->
     exists q segs, buildPlatform b = Some q /\ Report.EXECUTABLE_PATHS q = Some (Own segs)).
Proof.
  intros Hok Hp Hn H.
  destruct (ensure_cases E v bn bp d r d' t H)
    as [(-> & _ & Hr)|(n & p' & tb & tp' & ts & cur & _ & Hp' & _ & _ & Hs & _)].
  - split; [exact Hok|]. intros b ->. destruct (Hr b eq_refl) as (Hc & n & q & _ & _ & Hm).
    destruct (info d) as [| |[|b0]] eqn:Ei; cbn in Hc.
    + injection Hc as <-. rewrite empty_info_never_matches in Hm. discriminate.
    + injection Hc as <-. rewrite empty_info_never_matches in Hm. discriminate.
    + discriminate.
    + injection Hc as <-. apply descriptor_ok_platform. exact Hok.
  - rewrite Hp in Hp'. injection Hp' as <- _.
    destruct (stage_cases E v n p d r d' ts Hs) as (_ & _ & _ & [(Hi & _ & _ & _ & msg & ->)|(x & Hu & -> & ->)]).
    + rewrite Hi. split; [reflexivity|]. intros b Hb. discriminate.
    + destruct (download_urls_own v p x Hn Hu) as [tpl ->].
      cbn [info staged]. split; [exact (descriptor_ok_fresh v n p tpl Hu)|].
      intros b [= <-]. destruct (download_url_executable v p tpl Hu) as [segs Hsg].
      exists p, segs. auto.
Qed.

Lemma download_url_shape v p tpl n :
  DOWNLOAD_URLS v p = Some (Own tpl) ->
  exists suffix, format tpl n =
    ("https://playwright.azureedge.net/builds/" ++ browserName v ++ "/" ++ n ++ "/" ++ browserName v ++ suffix)%string.
Proof.
  unfold DOWNLOAD_URLS, get_prop, url_table. cbn [assoc].
  destruct (String.eqb p "ubuntu18.04"); [intros [= <-]; destruct v; eexists; reflexivity|].
  destruct (String.eqb p "ubuntu20.04"); [intros [= <-]; destruct v; eexists; reflexivity|].
  destruct (String.eqb p "mac10.14"); [intros [= <-]; destruct v; eexists; reflexivity|].
  destruct (String.eqb p "mac10.15"); [intros [= <-]; destruct v; eexists; reflexivity|].
  destruct (String.eqb p "mac11"); [intros [= <-]; destruct v; eexists; reflexivity|].
  destruct (String.eqb p "mac11-arm64"); [intros [= <-]; destruct v; eexists; reflexivity|].
  destruct (String.eqb p "win64"); [intros [= <-]; destruct v; eexists; reflexivity|].
  destruct (existsb (String.eqb p) Js.object_prototype_names); discriminate.
Qed.

(** X13: the only download a call starts goes to [firefox.zip] in the
    stage, from a URL whose path is [/builds/<browser>/<build number>/<browser>...]
    with the resolved build number, for a requested platform that
    [DOWNLOAD_URLS[browserName]] does not inherit from [Object.prototype]. *)
Theorem download_url_has_build_number (E : env) (v : variant) (bn bp : option string)
    (d : disk) (n p : string) (tb tp : list event) :
  resolveBuildNumber E v bn d = (inr n, d, tb) ->
  resolveBuildPlatform E bp d = (inr p, d, tp) ->
  ~ In p Report.object_prototype_names ->
  forall url dest, In (DownloadTo url dest) (snd (ensureFirefoxBuild E v bn bp d)) ->
  dest = buildZipPath /\
  exists suffix, url =
    ("https://playwright.azureedge.net/builds/" ++ browserName v ++ "/" ++ n ++ "/" ++ browserName v ++ suffix)%string.
Proof.
  intros H1 H2 Hn url dest.
  destruct (ensureFirefoxBuild E v bn bp d) as [[r d'] t] eqn:H. cbn [snd]. intros Hin.
  destruct (ensure_cases E v bn bp d r d' t H)
    as [(_ & Hnw & _)|(n' & p' & tb' & tp' & ts & cur & H1' & H2' & _ & _ & Hs & ->)].
  - apply Hnw in Hin. discriminate.
  - rewrite H1 in H1'. injection H1' as <- <-. rewrite H2 in H2'. injection H2' as <- <-.
    destruct (resolveBuildNumber_disk E v bn d _ _ _ H1) as [_ [Wb _]].
    destruct (resolveBuildPlatform_disk E bp d _ _ _ H2) as [_ [Wp _]].
    rewrite !in_app_iff in Hin. destruct Hin as [Hin|[Hin|Hin]].
    + apply (no_work_in _ Wb) in Hin. discriminate.
    + apply (no_work_in _ Wp) in Hin. discriminate.
    + destruct (stage_cases E v n p d r d' ts Hs) as (_ & _ & Hdl & _).
      destruct (Hdl url dest Hin) as (x & Hu & -> & ->).
      destruct (download_urls_own v p x Hn Hu) as [tpl ->].
      split; [reflexivity|]. exact (download_url_shape v p tpl n Hu).
Qed.

End CacheMore.

Module PatchMore.
Import Js Patcher PatcherFacts PatchSpec PatchFrame.
Local Open Scope list_scope.

Lemma bind_cases {A B} (m : M A) (k : A -> M B) fs r fs' t :
  bind m k fs = (r, fs', t) ->
  (exists e, m fs = (inl e, fs', t) /\ r = inl e) \/
  (exists x fs1 t1 t2, m fs = (inr x, fs1, t1) /\ k x fs1 = (r, fs', t2) /\ t = t1 ++ t2).
Proof.
  unfold bind. destruct (m fs) as [[[e|x] fs1] t1].
  - intros [= <- <- <-]. left. eauto.
  - destruct (k x fs1) as [[r2 fs2] t2] eqn:Hk. intros [= <- <- <-]. right. eauto 8.
Qed.

(** [fs1] agrees with [fs0] outside the extraction directory. *)
Definition same_outside (fs0 fs1 : fsys) : Prop :=
  forall p, is_under OMNI_EXTRACT_DIR p = false -> fs1 !! p = fs0 !! p.

Lemma same_outside_trans fs0 fs1 fs2 :
  same_outside fs0 fs1 -> same_outside fs1 fs2 -> same_outside fs0 fs2.
Proof. intros H1 H2 p Hp. rewrite H2, H1 by exact Hp. reflexivity. Qed.



Lemma extract_keep (z : archive) (dir k : path) (fs : fsys) c :
  fs !! k = Some c -> extract z dir fs !! k = Some c.
Proof. intros H. unfold extract. do 2 apply lookup_union_Some_l. exact H. Qed.


(** Outside the Juggler directory the copy loop changes no file and no
    existing node. *)
Lemma copy_keep dir br (lines : list string) fs r fs1 t :
  forallb dest_inside lines = true ->
  copyJarLines dir br lines fs = (r, fs1, t) ->
  forall p, is_under OMNI_JUGGLER_DIR p = false ->
  file_at fs1 p = file_at fs p /\ (fs !! p <> None -> fs1 !! p = fs !! p).
Proof.
  revert fs r fs1 t. induction lines as [|line lines IH]; intros fs r fs1 t Hwf H p Hp.
  - simpl in H. unfold ret in H. injection H as _ <- _. auto.
  - simpl in Hwf. apply andb_prop in Hwf as [Hline Hwf]. unfold dest_inside in Hline.
    cbn [copyJarLines] in H.
    destruct (split_ws line) as [|tok0 [|tok1 toks]].
    + unfold raise in H. injection H as _ <- _. auto.
    + unfold raise in H. injection H as _ <- _. auto.
    + set (toPath := path_join OMNI_JUGGLER_DIR tok0) in *.
      assert (Hne : toPath <> p) by (apply (under_ne OMNI_JUGGLER_DIR); assumption).
      apply bind_cases in H as [(e & Hm & _)|(u & fsm & tm & t' & Hm & H & _)].
      { apply mkdir_recursive_err in Hm as ->. auto. }
      apply mkdir_recursive_ok in Hm as [_ Hk].
      assert (Hm1 : file_at fsm p = file_at fs p /\ (fs !! p <> None -> fsm !! p = fs !! p)).
      { unfold file_at. destruct (Hk p) as [->|(-> & _ & _ & ->)]; [auto|]. split; [reflexivity|congruence]. }
      apply bind_cases in H as [(e & Hc & _)|(u2 & fsc & tc & t2 & Hc & H & _)].
      { apply copyFile_err in Hc as ->. exact Hm1. }
      apply copyFile_ok in Hc as (c & _ & _ & -> & _).
      destruct (IH _ _ _ _ Hwf H p Hp) as [IH1 IH2].
      destruct Hm1 as [Hm1 Hm2]. split.
      * rewrite IH1, file_at_insert_ne by exact Hne. exact Hm1.
      * intros Hn. rewrite IH2.
        -- rewrite lookup_insert_ne by exact Hne. apply Hm2. exact Hn.
        -- rewrite lookup_insert_ne by exact Hne. rewrite Hm2 by exact Hn. exact Hn.
Qed.

Lemma openZip_state (p : path) fs r fs' t : openZip p fs = (r, fs', t) -> fs' = fs.
Proof. unfold openZip. destruct (fs !! p) as [[s|z|]|]; intros [= _ <- _]; reflexivity. Qed.

Lemma readFile_state (zb : archive -> string) dir br fs r fs' t : readFile zb (JARMN_PATH dir br) fs = (r, fs', t) -> fs' = fs.
Proof.
  unfold readFile. destruct (fs !! JARMN_PATH dir br) as [c|]; [destruct (is_file c)|];
    intros [= _ <- _]; reflexivity.
Qed.

Lemma target_not_extract_dir (l : list path) fs target fs' t :
  findJuggler (List.filter is_omni l) fs = (inr (Some target), fs', t) -> target <> OMNI_EXTRACT_DIR.
Proof.
  intros H ->. apply findJuggler_some_in, in_filter_omni in H as [_ H]. discriminate.
Qed.

(** X14: whatever its outcome, [repackageJuggler] changes no file
    outside the extraction directory except two: the backup, which it
    only creates when no backup exists, as a copy of the archive it
    selected; and the selected archive, which it only rewrites in a run
    that completes.  The manifest lies outside the stage directory and
    its destinations stay in the Juggler directory.  The preferences
    that [installFirefoxPreferences] writes at the end of a completed
    run are recorded as an event, not as file changes. *)
Theorem patch_frame (zb : archive -> string) (dir : path) (br : string) (l : list path)
    (fs : fsys) (r : stop + unit) (fs' : fsys) (t : list event) :
  is_under BUILD_DIRECTORY (JARMN_PATH dir br) = false ->
  forallb dest_inside (manifest_lines zb dir br fs) = true ->
  repackageJuggler zb dir br l fs = (r, fs', t) ->
  (forall p, is_under OMNI_EXTRACT_DIR p = false -> p <> OMNI_BACKUP_PATH ->
     fs' !! p <> fs !! p ->
     r = inr tt /\ findJuggler (List.filter is_omni l) fs = (inr (Some p), fs, []) /\
     In (WriteZip p) t) /\
  (fs' !! OMNI_BACKUP_PATH <> fs !! OMNI_BACKUP_PATH ->
     path_exists fs OMNI_BACKUP_PATH = false /\
     exists target, findJuggler (List.filter is_omni l) fs = (inr (Some target), fs, []) /\
       In (CopyFile target OMNI_BACKUP_PATH) t /\ fs' !! OMNI_BACKUP_PATH = fs !! target).
Proof.
  intros Hjar Hwf H. unfold repackageJuggler in H.
  apply bind_cases in H as [(e & Hm & ->)|(x & fs0 & t0 & t' & Hm & H & ->)].
  { apply findJuggler_pure in Hm as [-> _]. split; intros; congruence. }
  pose proof Hm as Hfind. apply findJuggler_pure in Hm as [-> ->].
  destruct x as [target|].
  2: { unfold raise in H. injection H as _ <- _. split; intros; congruence. }
  pose proof (target_not_backup _ _ _ _ _ Hfind) as Htb.
  pose proof (target_not_extract_dir _ _ _ _ _ Hfind) as Hte.
  apply bind_cases in H as [(e & Hm & _)|(fs1 & fs2 & t1 & t2 & Hm & H & ->)];
    unfold get_fs in Hm; [discriminate|]. injection Hm as <- <- <-.
  (* the backup step *)
  apply bind_cases in H as [(e & Hm & ->)|(u & fsB & tB & t3 & Hm & H & ->)].
  { destruct (path_exists fs OMNI_BACKUP_PATH); [discriminate|].
    apply copyFile_err in Hm as ->. split; intros; congruence. }
  assert (HB : (forall p, p <> OMNI_BACKUP_PATH -> fsB !! p = fs !! p) /\
               (fsB !! OMNI_BACKUP_PATH <> fs !! OMNI_BACKUP_PATH ->
                path_exists fs OMNI_BACKUP_PATH = false /\ tB = [CopyFile target OMNI_BACKUP_PATH] /\
                fsB !! OMNI_BACKUP_PATH = fs !! target)).
  { destruct (path_exists fs OMNI_BACKUP_PATH).
    - unfold ret in Hm. injection Hm as _ <- <-. split; [reflexivity|]. intros Hn. congruence.
    - apply copyFile_ok in Hm as (cT & Hc & _ & -> & ->).
      split; [intros p Hp; apply lookup_insert_ne; congruence|].
      intros _. rewrite lookup_insert_eq. auto. }
  clear Hm. destruct HB as [HBo HBb].
  (* the rest of the run only touches the extraction directory and the target *)
  assert (Hrest : (forall p, is_under OMNI_EXTRACT_DIR p = false -> p <> target -> fs' !! p = fsB !! p) /\
                  (is_under OMNI_EXTRACT_DIR target = false ->
                   fs' !! target <> fsB !! target -> r = inr tt /\ In (WriteZip target) t3)).
  { assert (Hclose : forall fsk, same_outside fsB fsk -> fs' = fsk ->
              (forall p, is_under OMNI_EXTRACT_DIR p = false -> p <> target -> fs' !! p = fsB !! p) /\
              (is_under OMNI_EXTRACT_DIR target = false ->
               fs' !! target <> fsB !! target -> r = inr tt /\ In (WriteZip target) t3)).
    { intros fsk Hk ->. split; [intros p Hp _; exact (Hk p Hp)|].
      intros Hp Hne. exfalso. exact (Hne (Hk _ Hp)). }
    (* [rm -r] of the extraction directory, errors caught *)
    apply bind_cases in H as [(e & Hm & _)|(u2 & fsR & tR & t4 & Hm & H & ->)].
    { exfalso. unfold catch_all, rm_recursive, ENOENT in Hm.
      destruct (path_exists fsB OMNI_EXTRACT_DIR); discriminate. }
    assert (HR : same_outside fsB fsR).
    { unfold catch_all, rm_recursive, ENOENT in Hm. intros p Hp.
      destruct (path_exists fsB OMNI_EXTRACT_DIR); injection Hm as _ <- _; [|reflexivity].
      rewrite remove_tree_lookup, Hp. reflexivity. }
    clear Hm.
    (* [mkdir] *)
    apply bind_cases in H as [(e & Hm & _)|(u3 & fs3 & tm & t5 & Hm & H & ->)].
    { unfold mkdir in Hm. destruct (path_exists fsR OMNI_EXTRACT_DIR).
      - injection Hm as _ <- _. apply (Hclose fsR HR eq_refl).
      - destruct (is_directory fsR _); [discriminate|]. injection Hm as _ <- _.
        apply (Hclose fsR HR eq_refl). }
    unfold mkdir in Hm. destruct (path_exists fsR OMNI_EXTRACT_DIR); [discriminate|].
    destruct (is_directory fsR _); [|discriminate]. injection Hm as _ <- _.
    assert (H3 : same_outside fsB (<[OMNI_EXTRACT_DIR := Dir]> fsR)).
    { intros p Hp. rewrite lookup_insert_ne; [exact (HR p Hp)|].
      apply (under_ne OMNI_EXTRACT_DIR); [apply is_under_refl|exact Hp]. }
    assert (HE3 : <[OMNI_EXTRACT_DIR := Dir]> fsR !! OMNI_EXTRACT_DIR = Some Dir)
      by apply lookup_insert_eq.
    set (fs3 := <[OMNI_EXTRACT_DIR := Dir]> fsR) in *.
    (* [new AdmZip(OMNI_BACKUP_PATH)] *)
    apply bind_cases in H as [(e & Hm & _)|(zip & fs4 & tz & t6 & Hm & H & ->)].
    { apply openZip_state in Hm as ->. apply (Hclose fs3 H3 eq_refl). }
    apply openZip_ok in Hm as (_ & -> & ->).
    (* [extractAllTo] *)
    apply bind_cases in H as [(e & Hm & _)|(u5 & fs5 & te & t7 & Hm & H & ->)];
      unfold extractAllTo in Hm; destruct (archive_plain zip);
      try discriminate; injection Hm as _ <- _.
    { apply (Hclose fs3 H3 eq_refl). }
    assert (H5 : same_outside fsB (extract zip OMNI_EXTRACT_DIR fs3)).
    { eapply same_outside_trans; [exact H3|]. intros p Hp. apply extract_outside. exact Hp. }
    assert (HE5 : extract zip OMNI_EXTRACT_DIR fs3 !! OMNI_EXTRACT_DIR = Some Dir)
      by (apply extract_keep; exact HE3).
    (* [rm -r] of the Juggler directory *)
    apply bind_cases in H as [(e & Hm & _)|(u6 & fs6 & tj & t8 & Hm & H & ->)];
      unfold rm_recursive in Hm;
      destruct (path_exists (extract zip OMNI_EXTRACT_DIR fs3) OMNI_JUGGLER_DIR);
      try discriminate; injection Hm as _ <- _.
    1: { apply (Hclose _ H5). reflexivity. }
    set (fsJ := remove_tree OMNI_JUGGLER_DIR (extract zip OMNI_EXTRACT_DIR fs3)) in *.
    assert (HJ : same_outside fsB fsJ).
    { eapply same_outside_trans; [exact H5|]. intros p Hp. subst fsJ.
      rewrite remove_tree_lookup, (juggler_in_extract p Hp). reflexivity. }
    assert (HEJ : fsJ !! OMNI_EXTRACT_DIR = Some Dir).
    { subst fsJ. rewrite remove_tree_lookup. exact HE5. }
    (* [readFile(JARMN_PATH)] *)
    apply bind_cases in H as [(e & Hm & _)|(text & fs7 & tf & t9 & Hm & H & ->)].
    { apply readFile_state in Hm as ->. apply (Hclose _ HJ eq_refl). }
    unfold readFile in Hm. destruct (fsJ !! JARMN_PATH dir br) as [c|] eqn:Ec; [|discriminate].
    destruct (is_file c) eqn:Hcf; [|discriminate]. injection Hm as <- <- <-.
    assert (Hlines : forallb dest_inside (jarLines (content_bytes zb c)) = true).
    { assert (Hjx : is_under OMNI_EXTRACT_DIR (JARMN_PATH dir br) = false)
        by (apply extract_dir_under_stage; exact Hjar).
      assert (Hjb : JARMN_PATH dir br <> OMNI_BACKUP_PATH)
        by (apply not_eq_sym, (under_ne BUILD_DIRECTORY); [exact backup_under_stage|exact Hjar]).
      unfold manifest_lines, file_at in Hwf.
      rewrite <- (HBo _ Hjb), <- (HJ _ Hjx), Ec, Hcf in Hwf. exact Hwf. }
    assert (HexJ : path_exists fsJ OMNI_EXTRACT_DIR = true) by (eapply path_exists_lookup; exact HEJ).
    (* the copy loop *)
    apply bind_cases in H as [(e & Hm & _)|(u8 & fsC & tc & t10 & Hm & H & ->)].
    { apply (Hclose fs'); [|reflexivity]. eapply same_outside_trans; [exact HJ|].
      intros p Hp. exact (copy_frame _ _ _ _ _ _ _ Hlines HexJ Hm p Hp). }
    assert (HC : same_outside fsB fsC).
    { eapply same_outside_trans; [exact HJ|].
      intros p Hp. exact (copy_frame _ _ _ _ _ _ _ Hlines HexJ Hm p Hp). }
    assert (HEC : fsC !! OMNI_EXTRACT_DIR = Some Dir).
    { rewrite (proj2 (copy_keep _ _ _ _ _ _ _ Hlines Hm OMNI_EXTRACT_DIR eq_refl)); [exact HEJ|congruence]. }
    clear Hm.
    (* [unlink(target)] *)
    apply bind_cases in H as [(e & Hm & _)|(u9 & fs9 & tu & t11 & Hm & H & ->)].
    { unfold unlink in Hm. destruct (fsC !! target) as [cT|]; [destruct (is_file cT)|];
        try discriminate; injection Hm as _ <- _; apply (Hclose _ HC eq_refl). }
    unfold unlink in Hm. destruct (fsC !! target) as [cT|]; [|discriminate].
    destruct (is_file cT); [|discriminate]. injection Hm as _ <- _.
    (* [writeZip(target)] *)
    assert (Hd : is_directory (delete target fsC) OMNI_EXTRACT_DIR = true).
    { unfold is_directory. simpl. rewrite lookup_delete_ne by exact Hte. rewrite HEC. reflexivity. }
    apply bind_cases in H as [(e & Hm & _)|(u10 & fs10 & tw & t12 & Hm & H & ->)];
      unfold writeZip in Hm; rewrite Hd in Hm; [discriminate|]. injection Hm as _ <- <-.
    unfold emit in H. injection H as <- <- <-. split.
    - intros p Hp Hpt. rewrite lookup_insert_ne by congruence.
      rewrite lookup_delete_ne by congruence. exact (HC p Hp).
    - intros _ _. split; [reflexivity|]. rewrite !in_app_iff. simpl. auto 20. }
  destruct Hrest as [Hro Hrt]. split.
  - intros p Hp Hpb Hne.
    destruct (decide (p = target)) as [->|Hpt].
    + destruct (Hrt Hp) as [-> Hw]; [rewrite HBo by exact Hpb; exact Hne|].
      split; [reflexivity|]. split; [exact Hfind|]. rewrite !in_app_iff. auto.
    + exfalso. apply Hne. rewrite (Hro p Hp Hpt). apply HBo. exact Hpb.
  - intros Hne. rewrite (Hro _ backup_outside_extract (not_eq_sym Htb)) in Hne |- *.
    destruct (HBb Hne) as (Hx & -> & Hv). split; [exact Hx|].
    exists target. split; [exact Hfind|]. split; [|exact Hv]. rewrite !in_app_iff. simpl. auto.
Qed.


End PatchMore.

(* ------------------------------------------------------------------ *)
(** ** The properties at concrete inputs *)

Module PlatformWitnesses.
Import Js Platform.

Lemma darwin_arm64_and_clamp_witness :
  fst (getHostPlatform (mac_host "11.2.3" "1")) = "mac11-arm64".
Proof.
  refine (proj1 (PlatformFacts.darwin_arm64_and_clamp (mac_host "11.2.3" "1") _) _ _);
    vm_compute; reflexivity.
Defined.

Lemma darwin_10_minor_tag_witness :
  getHostPlatform (mac_host "10.15.7" "1")
  = ("mac10." ++ elem_to_string (product_version_parts (mac_host "10.15.7" "1") !! 1),
     [SwVersProductVersion]).
Proof.
  refine (proj1 (PlatformFacts.darwin_10_minor_tag (mac_host "10.15.7" "1") _ _));
    vm_compute; reflexivity.
Defined.

Lemma linux_version_bucket_witness :
  fst (getHostPlatform (linux_host (Some ubuntu1804_release))) = "ubuntu18.04" \/
  fst (getHostPlatform (linux_host (Some ubuntu1804_release))) = "ubuntu20.04".
Proof.
  exact (proj1 (proj2 (PlatformFacts.linux_version_bucket
                         (linux_host (Some ubuntu1804_release)) eq_refl))).
Defined.

End PlatformWitnesses.

Module DownloadWitnesses.
Import Js Download.

Lemma download_follows_redirects_witness :
  downloadFile 5 sample_server "https://a/x" "/tmp/f.zip" ∅
  = Some {| requested := ["https://a/x"; "https://b/y"]; result := Fulfilled;
            files := <["/tmp/f.zip" := body (sample_server "https://b/y")]> ∅;
            drained := false |}.
Proof.
  refine (proj1 (DownloadFacts.download_follows_redirects sample_server "https://a/x"
                   "https://b/y" "/tmp/f.zip" ["https://b/y"] ∅ 5 _ _ _)).
  - vm_compute. repeat split.
  - reflexivity.
  - simpl. lia.
Defined.

Lemma download_rejects_non_200_witness :
  exists msg,
    downloadFile 5 sample_server "https://c/z" "/tmp/f.zip" ∅
    = Some {| requested := ["https://c/z"]; result := Rejected msg; files := ∅; drained := true |} /\
    includes msg (num_to_string (Some (statusCode (sample_server "https://c/z")))) = true /\
    includes msg "https://c/z" = true.
Proof.
  apply (DownloadFacts.download_rejects_non_200 sample_server "https://c/z" "https://c/z"
           "/tmp/f.zip" [] ∅ 5).
  - reflexivity.
  - reflexivity.
  - vm_compute. discriminate.
  - simpl. lia.
Defined.

End DownloadWitnesses.

Module BuildCacheWitnesses.
Import BuildCache.
Local Open Scope list_scope.



End BuildCacheWitnesses.

Module PatcherWitnesses.
Import Js Patcher PatchSpec.
Local Open Scope list_scope.




End PatcherWitnesses.

Module ExtraWitnesses.

Lemma triple_eta {A B C} (x : A * B * C) : x = (fst (fst x), snd (fst x), snd x).
Proof. destruct x as [[a b] c]. reflexivity. Qed.



Lemma host_tag_supported_witness :
  (exists tpl, BuildCache.DOWNLOAD_URLS BuildCache.Firefox (fst (Platform.getHostPlatform (mac_host "12.1" "1")))
                = Some (Js.Own tpl)) /\
  (exists segs, Report.EXECUTABLE_PATHS (fst (Platform.getHostPlatform (mac_host "12.1" "1")))
                = Some (Js.Own segs)).
Proof.
  apply HostFacts.host_tag_supported. right. right. split; [reflexivity|].
  left. exists 12%Z. split; [vm_compute; reflexivity|lia].
Defined.

Lemma httpRequest_chain_sound_witness :
  exists hops last, ["https://a/x"; "https://b/y"] = "https://a/x" :: hops /\
    Download.redirects_to sample_server "https://a/x" hops last /\
    sample_server "https://b/y" = sample_server last /\
    Download.is_redirect (sample_server "https://b/y") = false.
Proof.
  apply (DownloadMore.httpRequest_chain_sound 5 sample_server "https://a/x").
  vm_compute. reflexivity.
Defined.

Lemma download_only_writes_destination_witness :
  let r := {| Download.requested := ["https://a/x"; "https://b/y"]; Download.result := Download.Fulfilled;
              Download.files := <["zip" := "ZIPDATA"]> ∅; Download.drained := false |} in
  (forall p, p <> "zip" -> Download.files r !! p = (∅ : gmap string string) !! p) /\
  exists hops last, Download.requested r = "https://a/x" :: hops /\
    Download.redirects_to sample_server "https://a/x" hops last /\
    (Download.result r = Download.Fulfilled <-> Download.statusCode (sample_server last) = 200%Z) /\
    (Download.result r = Download.Fulfilled -> Download.files r !! "zip" = Some (Download.body (sample_server last))) /\
    (Download.result r <> Download.Fulfilled -> Download.files r = ∅).
Proof.
  intros r. apply (DownloadMore.download_only_writes_destination 5 sample_server "https://a/x" "zip" ∅).
  vm_compute. reflexivity.
Defined.

Lemma redirect_without_location_rejected_witness :
  Download.downloadFile 3
    (fun _ => {| Download.statusCode := 301; Download.location := None; Download.body := "moved" |})
    "https://a/x" "zip" ∅
  = Some {| Download.requested := ["https://a/x"];
            Download.result := Download.Rejected (Download.failure_message 301 "https://a/x");
            Download.files := ∅; Download.drained := true |}.
Proof.
  apply (DownloadMore.redirect_without_location_rejected 2
           (fun _ => {| Download.statusCode := 301; Download.location := None; Download.body := "moved" |})
           "https://a/x" "zip" ∅).
  - simpl. lia.
  - left. reflexivity.
Defined.

Lemma ensure_fails_before_work_witness :
  exists msg t, BuildCache.ensureFirefoxBuild sample_env BuildCache.Firefox None None
                  {| BuildCache.info := BuildCache.InfoJson BuildCache.JNull; BuildCache.omni_backup_exists := true;
                     BuildCache.build_zip_exists := true; BuildCache.build_extracted := true |}
                = (inl msg, {| BuildCache.info := BuildCache.InfoJson BuildCache.JNull;
                               BuildCache.omni_backup_exists := true;
                               BuildCache.build_zip_exists := true; BuildCache.build_extracted := true |}, t) /\
                existsb BuildCache.is_work t = false.
Proof.
  apply CacheMore.ensure_fails_before_work. right. reflexivity.
Defined.

Lemma ensure_stage_outcomes_witness :
  let R := BuildCache.ensureFirefoxBuild offline_env BuildCache.Firefox (Some "1234") (Some "toString")
             cached_disk in
  (snd (fst R) = cached_disk /\ existsb BuildCache.is_work (snd R) = false) \/
  (In BuildCache.RemoveStage (snd R) /\
   ((BuildCache.info (snd (fst R)) = BuildCache.InfoMissing /\
     BuildCache.omni_backup_exists (snd (fst R)) = false /\
     (BuildCache.build_zip_exists (snd (fst R)) = true ->
        exists url, In (BuildCache.DownloadTo url BuildCache.buildZipPath) (snd R)) /\
     (BuildCache.build_extracted (snd (fst R)) = true ->
        In (BuildCache.Extract BuildCache.buildZipPath BuildCache.BUILD_DIRECTORY false true) (snd R)) /\
     exists msg, fst (fst R) = inl msg) \/
    (exists b, fst (fst R) = inr b /\ snd (fst R) = BuildCache.staged b))).
Proof.
  intros R. apply (CacheMore.ensure_stage_outcomes offline_env BuildCache.Firefox (Some "1234") (Some "toString")
           cached_disk (fst (fst R)) (snd (fst R)) (snd R)).
  vm_compute. reflexivity.
Defined.

Lemma ensure_keeps_descriptor_supported_witness :
  let R := BuildCache.ensureFirefoxBuild sample_env BuildCache.Firefox (Some "1234") (Some "ubuntu20.04")
             cached_disk in
  StageSpec.descriptor_ok (BuildCache.info (snd (fst R))) = true /\
  (forall b, fst (fst R) = inr b ->
     exists q segs, BuildCache.buildPlatform b = Some q /\ Report.EXECUTABLE_PATHS q = Some (Js.Own segs)).
Proof.
  intros R. apply (CacheMore.ensure_keeps_descriptor_supported sample_env BuildCache.Firefox
           (Some "1234") (Some "ubuntu20.04") cached_disk
           "ubuntu20.04" [] (fst (fst R)) (snd (fst R)) (snd R)).
  - vm_compute. reflexivity.
  - vm_compute. reflexivity.
  - vm_compute. intuition discriminate.
  - vm_compute. reflexivity.
Defined.

Lemma download_url_has_build_number_witness :
  "/tmp/repackaged-firefox/firefox.zip" = BuildCache.buildZipPath /\
  exists suffix,
    "https://playwright.azureedge.net/builds/firefox/1234/firefox-ubuntu-20.04.zip" =
    ("https://playwright.azureedge.net/builds/" ++ BuildCache.browserName BuildCache.Firefox ++ "/" ++
     "1234" ++ "/" ++ BuildCache.browserName BuildCache.Firefox ++ suffix).
Proof.
  apply (CacheMore.download_url_has_build_number sample_env BuildCache.Firefox None None empty_disk
           "1234" "ubuntu20.04" [BuildCache.ReadBuildNumberFile BuildCache.Firefox]
           [BuildCache.ProbeHostPlatform]).
  - vm_compute. reflexivity.
  - vm_compute. reflexivity.
  - vm_compute. intuition discriminate.
  - vm_compute. repeat (first [left; reflexivity | right]).
Defined.

Lemma patch_frame_witness :
  In (Patcher.CopyFile omni_path Patcher.OMNI_BACKUP_PATH) (snd sample_run1) /\
  sample_fs1 !! Patcher.OMNI_BACKUP_PATH = sample_fs sample_manifest !! omni_path.
Proof.
  pose proof (PatchMore.patch_frame sample_zip_bytes patcher_dirname "firefox"
           (Patcher.listFiles Patcher.BUILD_DIRECTORY (sample_fs sample_manifest))
           (sample_fs sample_manifest) _ _ _
           ltac:(vm_compute; reflexivity) ltac:(vm_compute; reflexivity)
           (triple_eta sample_run1)) as [_ H2].
  assert (Hn : sample_fs1 !! Patcher.OMNI_BACKUP_PATH
               <> sample_fs sample_manifest !! Patcher.OMNI_BACKUP_PATH).
  { assert (Hs : sample_fs sample_manifest !! Patcher.OMNI_BACKUP_PATH = None)
      by (vm_compute; reflexivity).
    rewrite Hs. intros Hb.
    assert (Hx : match sample_fs1 !! Patcher.OMNI_BACKUP_PATH with None => false | Some _ => true end
                 = true) by (vm_compute; reflexivity).
    rewrite Hb in Hx. discriminate. }
  destruct (H2 Hn) as (_ & target & Hf & Hin & Hv).
  assert (E : fst (fst (Patcher.findJuggler (List.filter Patcher.is_omni
                 (Patcher.listFiles Patcher.BUILD_DIRECTORY (sample_fs sample_manifest)))
                 (sample_fs sample_manifest))) = inr (Some omni_path)) by (vm_compute; reflexivity).
  rewrite Hf in E. injection E as ->. split; [exact Hin|exact Hv].
Defined.

End ExtraWitnesses.
